(** * picasso: the [BaseModel] interface and the [generate_model] factory

    A shallow embedding of [picasso/ml_frameworks/model.py].

    Python objects that the module itself creates, reads or mutates (lists
    and the per-class entry dictionaries) live in an explicit store, so that
    aliasing and in-place updates are visible.  Everything the module merely
    receives from its environment (the plugged-in preprocessor, postprocessor
    and decoder objects, the loaded model module, user classes) is reached
    through the [Env] interface and left uninterpreted. *)

From Stdlib Require Import ZArith String Ascii DecimalString.
From Stdlib Require Import SpecFloat.
From stdpp Require Import base option list gmap strings fin_maps.

Local Open Scope string_scope.
Local Open Scope list_scope.
Local Open Scope Z_scope.

(** ** Values, objects and the store *)

Abbreviation loc := nat.

(** A Python value.  [VFloat] is an IEEE binary64 number ([float]);
    [VRef] points to a mutable container in the store; [VForeign] is any
    other object (module, function, class instance, image, ...). *)
Inductive value : Type :=
| VNone
| VInt (z : Z)
| VFloat (f : spec_float)
| VStr (s : string)
| VRef (l : loc)
| VForeign (id : N).

(** Mutable containers.  A dictionary keeps its keys in insertion order. *)
Inductive obj : Type :=
| OList (items : list value)
| ODict (fields : list (string * value)).

Inductive exn : Type :=
| AttributeError
| NotImplementedError
| TypeError
| ValueError
| KeyError
| OverflowError
| OtherError (name : string).

(** The store and the log of warnings issued through [warnings.warn]. *)
Record state : Type := State {
  heap : list obj;
  warnings : list string
}.

Inductive res (A : Type) : Type :=
| Ok (a : A)
| Raise (e : exn).
Arguments Ok {A} a.
Arguments Raise {A} e.

(** ** The monad of Python computations: state plus exceptions *)

Definition py (A : Type) : Type := state -> res A * state.

Definition ret {A} (a : A) : py A := fun st => (Ok a, st).

Definition raise {A} (e : exn) : py A := fun st => (Raise e, st).

Definition bind {A B} (m : py A) (k : A -> py B) : py B :=
  fun st =>
    match m st with
    | (Ok a, st') => k a st'
    | (Raise e, st') => (Raise e, st')
    end.

Notation "'let*' x ':=' m 'in' k" := (bind m (fun x => k))
  (at level 10, x name, m at level 100, k at level 200).
Notation "m ';;' k" := (bind m (fun _ => k))
  (at level 100, k at level 200, right associativity).

(** [try: body except AttributeError: handler].  Effects of [body] up to the
    point where it raised are kept. *)
Definition try_except_AttributeError {A} (body handler : py A) : py A :=
  fun st =>
    match body st with
    | (Raise AttributeError, st') => handler st'
    | r => r
    end.

(** [warnings.warn(msg)] under the default filter: the message is recorded
    and execution continues. *)
Definition warn (msg : string) : py unit :=
  fun st => (Ok tt, State (heap st) (warnings st ++ [msg])).

Definition alloc (o : obj) : py value :=
  fun st => (Ok (VRef (length (heap st))), State (heap st ++ [o]) (warnings st)).

Definition store (l : loc) (o : obj) : py unit :=
  fun st => (Ok tt, State (<[l := o]> (heap st)) (warnings st)).

Definition deref (l : loc) : py (option obj) :=
  fun st => (Ok (heap st !! l), st).

(** [for x in xs: body x], over the sequence the iterable yields.  The
    loops of this module never change the container they iterate over, so
    the sequence can be taken when the loop starts. *)
Fixpoint for_each {A} (xs : list A) (body : A -> py unit) : py unit :=
  match xs with
  | [] => ret tt
  | x :: xs' => body x ;; for_each xs' body
  end.

Fixpoint map_py {A B} (f : A -> py B) (xs : list A) : py (list B) :=
  match xs with
  | [] => ret []
  | x :: xs' => let* y := f x in let* ys := map_py f xs' in ret (y :: ys)
  end.

(** ** The environment: objects supplied from outside the module *)

Class Env : Type := {
  (** [getattr(o, name)] on a collaborator object. *)
  obj_getattr : value -> string -> py value;
  (** a call [f(args, kwargs)] with positional and keyword arguments *)
  obj_call : value -> list value -> gmap string value -> py value;
  (** the sequence a foreign iterable yields *)
  obj_iter : N -> py (list value);
  (** [a < b] and the truth value of its result, when an operand is a
      foreign object or both are lists *)
  obj_lt : value -> value -> py bool;
  (** [o.__format__(spec)] of a foreign object *)
  obj_format : N -> string -> py string;
  (** [o.__index__()] of a foreign object *)
  obj_index : N -> py Z;
  (** [importlib.util.spec_from_file_location('active_model', path)],
      [module_from_spec] and [spec.loader.exec_module], as one step *)
  import_from_file : string -> py value;
  (** [isinstance(o, BaseModel)] *)
  isinstance_BaseModel : value -> bool;
  (** [self.name] for a name that the instance's class or [object] may
      define (a method, [__class__], [__dict__], ...): the bound method or
      other object found there, or [AttributeError] when there is none *)
  obj_class_attr : gmap string value -> string -> py value;
  (** [setattr(self, key, v)] where [key] is [__class__] or [__dict__] and
      [v] an object that may be a class or a mapping: the class or the
      attribute dictionary of the instance is swapped (or the assignment
      refused), and the assignments of the remaining keyword arguments
      are made on what results *)
  obj_setattr_special :
    gmap string value -> string -> value -> list (string * value) ->
    py (gmap string value)
}.

(** ** Built-in operations used by the module *)

Definition sign_prefix (s : bool) : string := if s then "-" else "".

(** [str(i)] for an integer. *)
Definition str_of_Z (z : Z) : string := NilZero.string_of_int (Z.to_int z).

Definition digit_char (d : Z) : ascii := ascii_of_nat (48 + Z.to_nat d).

(** Nearest integer to [num/den], ties to even ([0 <= num], [0 < den]). *)
Definition round_half_even (num den : Z) : Z :=
  let q := num / den in
  match 2 * (num mod den) ?= den with
  | Lt => q
  | Gt => q + 1
  | Eq => if Z.even q then q else q + 1
  end.

(** [m * 2^e], in thousandths, correctly rounded. *)
Definition thousandths (m : positive) (e : Z) : Z :=
  if 0 <=? e then Zpos m * 2 ^ e * 1000
  else round_half_even (Zpos m * 1000) (2 ^ (- e)).

Definition fixed3 (s : bool) (q : Z) : string :=
  sign_prefix s +:+ str_of_Z (q / 1000) +:+ "." +:+
  String (digit_char (q / 100 mod 10))
    (String (digit_char (q / 10 mod 10))
      (String (digit_char (q mod 10)) "")).

(** ['{:.3f}'.format(x)] for a float [x]. *)
Definition format_3f_float (f : spec_float) : string :=
  match f with
  | S754_nan => "nan"
  | S754_infinity s => sign_prefix s +:+ "inf"
  | S754_zero s => fixed3 s 0
  | S754_finite s m e => fixed3 s (thousandths m e)
  end.

(** [float(z)] for an integer: round to nearest even binary64. *)
Definition float_of_Z (z : Z) : spec_float := binary_normalize 53 1024 z 0 false.

(** Exact comparison of an integer with a float; [None] on NaN. *)
Definition Z_SF_compare (z : Z) (f : spec_float) : option comparison :=
  match f with
  | S754_nan => None
  | S754_infinity s => Some (if s then Gt else Lt)
  | S754_zero _ => Some (z ?= 0)
  | S754_finite s m e =>
      let v := if s then Zneg m else Zpos m in
      Some (if 0 <=? e then z ?= v * 2 ^ e else z * 2 ^ (- e) ?= v)
  end.

Definition is_Lt (c : option comparison) : bool :=
  match c with Some Lt => true | _ => false end.

Definition is_Gt (c : option comparison) : bool :=
  match c with Some Gt => true | _ => false end.

Definition is_list (h : list obj) (v : value) : bool :=
  match v with
  | VRef l => match h !! l with Some (OList _) => true | _ => false end
  | _ => false
  end.

(** The items [l[:k]] keeps: the first [k], or all but the last [-k] when
    [k] is negative. *)
Definition take_upto {A} (k : Z) (items : list A) : list A :=
  if k <? 0 then take (Z.to_nat (Z.of_nat (length items) + k)) items
  else take (Z.to_nat k) items.

Section WithEnv.
Context `{Env}.

(** [a < b] as [sorted] evaluates it. *)
Definition py_lt (a b : value) : py bool :=
  match a, b with
  | VInt x, VInt y => ret (x <? y)
  | VFloat f, VFloat g => ret (SFltb f g)
  | VInt x, VFloat g => ret (is_Lt (Z_SF_compare x g))
  | VFloat f, VInt y => ret (is_Gt (Z_SF_compare y f))
  | VStr s, VStr t => ret (String.ltb s t)
  | VForeign _, _ | _, VForeign _ => obj_lt a b
  | VRef _, VRef _ =>
      fun st => if is_list (heap st) a && is_list (heap st) b
                then obj_lt a b st else (Raise TypeError, st)
  | _, _ => raise TypeError
  end.

(** ['{:.3f}'.format(v)] *)
Definition format_3f (v : value) : py string :=
  match v with
  | VFloat f => ret (format_3f_float f)
  | VInt z =>
      match float_of_Z z with
      | S754_infinity _ => raise OverflowError
      | f => ret (format_3f_float f)
      end
  | VStr _ => raise ValueError
  | VNone | VRef _ => raise TypeError
  | VForeign o => obj_format o ".3f"
  end.

(** The sequence [iter(v)] yields. *)
Definition py_iter (v : value) : py (list value) :=
  match v with
  | VRef l =>
      let* o := deref l in
      match o with
      | Some (OList items) => ret items
      | Some (ODict fields) => ret (map (fun kv => VStr (fst kv)) fields)
      | None => raise TypeError
      end
  | VStr s => ret (map (fun c => VStr (String c "")) (list_ascii_of_string s))
  | VForeign o => obj_iter o
  | VNone | VInt _ | VFloat _ => raise TypeError
  end.

(** [l.append(x)] *)
Definition list_append (l x : value) : py unit :=
  match l with
  | VRef a =>
      let* o := deref a in
      match o with
      | Some (OList items) => store a (OList (items ++ [x]))
      | _ => raise AttributeError
      end
  | _ => raise AttributeError
  end.

Fixpoint assoc_get (k : string) (fields : list (string * value)) : option value :=
  match fields with
  | [] => None
  | (k', v) :: rest => if String.eqb k k' then Some v else assoc_get k rest
  end.

Fixpoint assoc_set (k : string) (v : value) (fields : list (string * value))
  : list (string * value) :=
  match fields with
  | [] => [(k, v)]
  | (k', v') :: rest =>
      if String.eqb k k' then (k', v) :: rest else (k', v') :: assoc_set k v rest
  end.

(** [d[k]], also what [itemgetter(k)(d)] evaluates *)
Definition getitem (d : value) (k : string) : py value :=
  match d with
  | VRef a =>
      let* o := deref a in
      match o with
      | Some (ODict fields) =>
          match assoc_get k fields with
          | Some v => ret v
          | None => raise KeyError
          end
      | _ => raise TypeError
      end
  | _ => raise TypeError
  end.

(** [d[k] = v]: the dictionary object is updated in place *)
Definition setitem (d : value) (k : string) (v : value) : py unit :=
  match d with
  | VRef a =>
      let* o := deref a in
      match o with
      | Some (ODict fields) => store a (ODict (assoc_set k v fields))
      | _ => raise TypeError
      end
  | _ => raise TypeError
  end.

(** [enumerate(xs)], counting from [i] *)
Fixpoint enumerate_from (i : Z) (xs : list value) : list (Z * value) :=
  match xs with
  | [] => []
  | x :: xs' => (i, x) :: enumerate_from (i + 1) xs'
  end.

(** [sorted(..., reverse=True)] on (key, item) pairs: a stable sort that
    only asks [<] of the keys.  An item goes after the items whose key is
    strictly greater and stays before the later items of the input whose
    key is not.  Whenever [<] totally preorders the keys this is the one
    list a stable descending sort can return, whatever pairs it compares.
    With a NaN among the keys no [<] involving it holds, the result of a
    sort then depends on which pairs it compares, and the order CPython
    returns need not be the one computed here. *)
Fixpoint insert_desc (kx : value * value) (l : list (value * value))
  : py (list (value * value)) :=
  match l with
  | [] => ret [kx]
  | ky :: l' =>
      let* b := py_lt (fst kx) (fst ky) in
      if b then (let* r := insert_desc kx l' in ret (ky :: r))
      else ret (kx :: l)
  end.

Fixpoint sort_desc (l : list (value * value)) : py (list (value * value)) :=
  match l with
  | [] => ret []
  | kx :: l' => let* s := sort_desc l' in insert_desc kx s
  end.

(** [sorted(entries, key=itemgetter(k), reverse=True)]: a new list *)
Definition sorted_by_key_desc (entries : value) (k : string) : py value :=
  let* items := py_iter entries in
  let* keys := map_py (fun e => getitem e k) items in
  let* s := sort_desc (zip keys items) in
  alloc (OList (map snd s)).

(** [l[:top]]: a new list *)
Definition slice_upto (l top : value) : py value :=
  let* items := py_iter l in
  let* stop :=
    match top with
    | VNone => ret None
    | VInt k => ret (Some k)
    | VForeign o => let* k := obj_index o in ret (Some k)
    | _ => raise TypeError
    end in
  alloc (OList
    match stop with
    | None => items
    | Some k => take_upto k items
    end).

End WithEnv.

(** ** class BaseModel *)

(** An instance is its attribute dictionary.  Methods are resolved on the
    class, see [methods]. *)
Abbreviation instance := (gmap string value).

(** The empty keyword mapping. *)
Instance kwargs_empty : Empty (list (string * value)) := [].

(** The names under which [object] keeps a data descriptor for an instance
    of a plain class: they are never looked up in, nor stored into, the
    attribute dictionary. *)
Definition data_descriptor (name : string) : bool :=
  String.eqb name "__class__" || String.eqb name "__dict__" ||
  String.eqb name "__weakref__".

(** [__x__] *)
Definition is_dunder (name : string) : bool :=
  String.prefix "__" name &&
  String.eqb (substring (String.length name - 2) 2 name) "__".

(** The methods [BaseModel] defines under an ordinary name. *)
Definition method_names : list string :=
  ["load"; "_predict"; "predict"; "preprocess"; "postprocess"; "decode_prob"].

(** Names the class, or [object], may provide when the instance itself has
    no such attribute: the methods, and any name of the form [__x__]. *)
Definition class_provides (name : string) : bool :=
  is_dunder name || existsb (String.eqb name) method_names.

(** Names that cannot come in through the double-starred parameter
    ([self] is taken by the first parameter) or cannot be assigned like
    any other ([__class__], [__dict__], [__weakref__]). *)
Definition special_name (key : string) : bool :=
  String.eqb key "self" || data_descriptor key.

(** What [setattr] did: stored the value in the attribute dictionary, or
    met [__class__] or [__dict__] with an object that may qualify. *)
Inductive assigned : Type :=
| Stored (self : instance)
| Swaps.

Section Attributes.
Context `{Env}.

(** [self.name].  An attribute of the instance is found first, unless the
    name is one of the data descriptors; what the class provides comes
    next; otherwise [AttributeError]. *)
Definition self_attr (self : instance) (name : string) : py value :=
  match self !! name with
  | Some v => if data_descriptor name then obj_class_attr self name else ret v
  | None =>
      if class_provides name then obj_class_attr self name
      else raise AttributeError
  end.

(** [setattr(self, key, v)] on an instance of a plain class.
    [__weakref__] is not writable.  [__class__] must be set to a class and
    [__dict__] to a dictionary: [None], a number, a string, and for
    [__class__] a list or dictionary, are refused with [TypeError], as is
    a list for [__dict__].  Every other name, of the form [__x__] or not,
    goes into the attribute dictionary. *)
Definition setattr (self : instance) (key : string) (v : value) : py assigned :=
  if String.eqb key "__weakref__" then raise AttributeError
  else if String.eqb key "__class__" then
    match v with
    | VForeign _ => ret Swaps
    | _ => raise TypeError
    end
  else if String.eqb key "__dict__" then
    match v with
    | VForeign _ => ret Swaps
    | VRef l =>
        let* o := deref l in
        match o with
        | Some (ODict _) => ret Swaps
        | _ => raise TypeError
        end
    | _ => raise TypeError
    end
  else ret (Stored (<[key := v]> self)).

End Attributes.

(** The methods a subclass may override.  [self.m(...)] goes to the
    record of the methods as they are found on the instance: those of its
    class, unless an attribute of the instance shadows one (see
    [resolve]). *)
Record methods : Type := {
  m_load : instance -> value -> gmap string value -> py value;
  m__predict : instance -> value -> py value;
  m_preprocess : instance -> value -> py value;
  m_postprocess : instance -> value -> py value;
  m_decode_prob : instance -> value -> py value
}.

Module BaseModel.
Section WithEnv.
Context `{Env}.

(** [for key, value in kwargs.items(): setattr(self, key, value)], in the
    order of the mapping. *)
Fixpoint set_attributes (self : instance) (kwargs : list (string * value))
  : py instance :=
  match kwargs with
  | [] => ret self
  | (key, v) :: rest =>
      let* r := setattr self key v in
      match r with
      | Stored self' => set_attributes self' rest
      | Swaps => obj_setattr_special self key v rest
      end
  end.

(** The body of the constructor, lines 32-35, with the parameters bound:
    [kwargs] is the dictionary of the double-starred parameter, in its
    order. *)
Definition __init__ (self : instance) (top_probs : value)
    (kwargs : list (string * value)) : py instance :=
  let* r := setattr self "top_probs" top_probs in
  match r with
  | Stored self' =>
      match kwargs with
      | [] => ret self'
      | _ => set_attributes self' kwargs
      end
  | Swaps => obj_setattr_special self "top_probs" top_probs kwargs
  end.

(** The call [BaseModel(top_probs, kwargs)].  [top_probs] is what the
    caller gave for that parameter, if anything, and [kwargs] the other
    keyword arguments of the call in their order.  A keyword [self], and a
    second value for [top_probs], are refused when the parameters are
    bound; a keyword [top_probs] goes to the parameter. *)
Definition new (top_probs : option value) (kwargs : list (string * value))
  : py instance :=
  if existsb (fun kv => String.eqb (fst kv) "self") kwargs then raise TypeError
  else
    match assoc_get "top_probs" kwargs, top_probs with
    | Some _, Some _ => raise TypeError
    | Some v, None =>
        __init__ ∅ v
          (filter (fun kv => negb (String.eqb (fst kv) "top_probs")) kwargs)
    | None, _ => __init__ ∅ (default (VInt 5) top_probs) kwargs
    end.

Definition load (self : instance) (data_dir : value)
    (kwargs : gmap string value) : py value :=
  raise NotImplementedError.

Definition _predict (self : instance) (targets : value) : py value :=
  raise NotImplementedError.

Definition predict (cls : methods) (self : instance) (raw_targets : value)
  : py value :=
  let* targets := m_preprocess cls self raw_targets in
  m__predict cls self targets.

(** [getattr(o, n)]: the name has to be a string *)
Definition py_getattr (o n : value) : py value :=
  match n with
  | VStr s => obj_getattr o s
  | _ => raise TypeError
  end.

Definition preprocess (self : instance) (raw_targets : value) : py value :=
  try_except_AttributeError
    (let* p := self_attr self "preprocessor" in
     let* n := self_attr self "preprocessor_name" in
     let* f := py_getattr p n in
     obj_call f [raw_targets] ∅)
    (warn "Evaluating without preprocessor" ;;
     ret raw_targets).

Definition postprocess (self : instance) (output_arr : value) : py value :=
  try_except_AttributeError
    (let* p := self_attr self "postprocessor" in
     let* n := self_attr self "postprocessor_name" in
     let* f := py_getattr p n in
     obj_call f [output_arr] ∅)
    (warn "Evaluating without postprocessor" ;;
     ret output_arr).

(** The body of the loop over the rows, lines 149-161. *)
Definition decode_row (self : instance) (results row : value) : py unit :=
  let* entries := alloc (OList []) in
  let* cells := py_iter row in
  for_each (enumerate_from 0 cells) (fun ip =>
    let* e := alloc (ODict [("index", VInt (fst ip));
                            ("name", VStr (str_of_Z (fst ip)));
                            ("prob", snd ip)]) in
    list_append entries e) ;;
  let* sorted := sorted_by_key_desc entries "prob" in
  let* top := self_attr self "top_probs" in
  let* entries := slice_upto sorted top in
  let* retained := py_iter entries in
  for_each retained (fun entry =>
    let* p := getitem entry "prob" in
    let* s := format_3f p in
    setitem entry "prob" (VStr s)) ;;
  list_append results entries.

(** The default decoding algorithm, lines 147-162. *)
Definition default_decode (self : instance) (output_arr : value) : py value :=
  let* results := alloc (OList []) in
  let* rows := py_iter output_arr in
  for_each rows (decode_row self results) ;;
  ret results.

Definition decode_prob (self : instance) (output_arr : value) : py value :=
  try_except_AttributeError
    (let* d := self_attr self "prob_decoder" in
     let* n := self_attr self "prob_decoder_name" in
     let* f := py_getattr d n in
     let* top := self_attr self "top_probs" in
     obj_call f [output_arr] {[ "top" := top ]})
    (warn "Evaluating without class decoder" ;;
     default_decode self output_arr).

(** The class itself, and a subclass that overrides [_predict] only. *)
Definition cls : methods := {|
  m_load := load;
  m__predict := _predict;
  m_preprocess := preprocess;
  m_postprocess := postprocess;
  m_decode_prob := decode_prob
|}.

Definition subclass (_predict' : instance -> value -> py value) : methods := {|
  m_load := load;
  m__predict := _predict';
  m_preprocess := preprocess;
  m_postprocess := postprocess;
  m_decode_prob := decode_prob
|}.

End WithEnv.
End BaseModel.

(** ** generate_model *)

Section GenerateModel.
Context `{Env}.

(** [repr(BaseModel)] *)
Definition BaseModel_repr : string :=
  "<class 'picasso.ml_frameworks.model.BaseModel'>".

Definition generate_model (model_cls_path model_cls_name : string)
    (kwargs : gmap string value) : py value :=
  let* model_module := import_from_file model_cls_path in
  let* model_cls := obj_getattr model_module model_cls_name in
  let* model := obj_call model_cls [] kwargs in
  (if isinstance_BaseModel model then ret tt
   else warn ("Loaded model '" +:+ model_cls_name +:+ "' at '" +:+
              model_cls_path +:+ "' is not an instance of " +:+
              BaseModel_repr)) ;;
  ret model.

End GenerateModel.

(** ** Concrete environments and inputs used in examples *)

(** An environment without usable foreign objects: every operation on one
    fails, and nothing is an instance of [BaseModel]. *)
Definition bare_env : Env := {|
  obj_getattr := fun _ _ => raise AttributeError;
  obj_call := fun _ _ _ => raise TypeError;
  obj_iter := fun _ => raise TypeError;
  obj_lt := fun _ _ => raise TypeError;
  obj_format := fun _ _ => raise TypeError;
  obj_index := fun _ => raise TypeError;
  import_from_file := fun _ => raise (OtherError "FileNotFoundError");
  isinstance_BaseModel := fun _ => false;
  obj_class_attr := fun _ _ => raise AttributeError;
  obj_setattr_special := fun _ _ _ _ => raise TypeError
|}.

(** The binary64 numbers written [0.1], [0.7] and [0.2]. *)
Definition f0_1 : spec_float := S754_finite false 7205759403792794 (-56).
Definition f0_7 : spec_float := S754_finite false 6305039478318694 (-53).
Definition f0_2 : spec_float := S754_finite false 7205759403792794 (-55).

(** A store holding the nested list [[0.1, 0.7, 0.2]] at location 1. *)
Definition st_example : state :=
  State [OList [VFloat f0_1; VFloat f0_7; VFloat f0_2]; OList [VRef 0%nat]] [].

(** An environment whose delegates resolve but fail with [AttributeError]
    when they are called. *)
Definition broken_delegate_env : Env := {|
  obj_getattr := fun _ _ => ret (VForeign 7);
  obj_call := fun _ _ _ => raise AttributeError;
  obj_iter := fun _ => raise TypeError;
  obj_lt := fun _ _ => raise TypeError;
  obj_format := fun _ _ => raise TypeError;
  obj_index := fun _ => raise TypeError;
  import_from_file := fun _ => raise (OtherError "FileNotFoundError");
  isinstance_BaseModel := fun _ => false;
  obj_class_attr := fun _ _ => raise AttributeError;
  obj_setattr_special := fun _ _ _ _ => raise TypeError
|}.

(** An environment in which any file loads as module 1, any attribute of it
    is the class 2, and calling that yields object 3, which is not a
    [BaseModel]. *)
Definition plugin_env : Env := {|
  obj_getattr := fun _ _ => ret (VForeign 2);
  obj_call := fun _ _ _ => ret (VForeign 3);
  obj_iter := fun _ => raise TypeError;
  obj_lt := fun _ _ => raise TypeError;
  obj_format := fun _ _ => raise TypeError;
  obj_index := fun _ => raise TypeError;
  import_from_file := fun _ => ret (VForeign 1);
  isinstance_BaseModel := fun _ => false;
  obj_class_attr := fun _ _ => raise AttributeError;
  obj_setattr_special := fun _ _ _ _ => raise TypeError
|}.

(** ** Reading results back from the store *)

Definition read_list (h : list obj) (v : value) : option (list value) :=
  match v with
  | VRef l => match h !! l with Some (OList items) => Some items | _ => None end
  | _ => None
  end.

Definition read_dict (h : list obj) (v : value) : option (list (string * value)) :=
  match v with
  | VRef l => match h !! l with Some (ODict fields) => Some fields | _ => None end
  | _ => None
  end.

(** A list of dictionaries, and a list of such lists. *)
Definition read_entries (h : list obj) (v : value)
  : option (list (list (string * value))) :=
  read_list h v ≫= mapM (read_dict h).

Definition read_results (h : list obj) (v : value)
  : option (list (list (list (string * value)))) :=
  read_list h v ≫= mapM (read_entries h).

(** A two-dimensional array of floats: a list of lists. *)
Definition read_array (h : list obj) (v : value) : option (list (list value)) :=
  read_list h v ≫= mapM (read_list h).

Definition float_array (h : list obj) (v : value) (rows : list (list spec_float))
  : Prop :=
  read_array h v = Some (map (map VFloat) rows).

(** The state after [warnings.warn(msg)]. *)
Definition warned (st : state) (msg : string) : state :=
  State (heap st) (warnings st ++ [msg]).

(** The delegate object, or the name to call on it, is not set. *)
Definition no_delegate (self : instance) (obj_attr name_attr : string) : Prop :=
  self !! obj_attr = None \/ self !! name_attr = None.

(** ** The default decoding, stated on lists *)

(** The dictionary built for class [i]. *)
Definition entry (i : Z) (p : value) : list (string * value) :=
  [("index", VInt i); ("name", VStr (str_of_Z i)); ("prob", p)].

(** A row with its class indices. *)
Fixpoint enum_from (i : nat) (fs : list spec_float) : list (nat * spec_float) :=
  match fs with
  | [] => []
  | f :: fs' => (i, f) :: enum_from (S i) fs'
  end.

(** Stable descending insertion sort for a comparison that cannot fail. *)
Fixpoint insert_by {A} (lt : A -> A -> bool) (x : A) (l : list A) : list A :=
  match l with
  | [] => [x]
  | y :: l' => if lt x y then y :: insert_by lt x l' else x :: l
  end.

Fixpoint sort_by {A} (lt : A -> A -> bool) (l : list A) : list A :=
  match l with
  | [] => []
  | x :: l' => insert_by lt x (sort_by lt l')
  end.

(** [<] on the keys of (key, item) pairs whose keys are floats. *)
Definition key_lt (x y : value * value) : bool :=
  match fst x, fst y with
  | VFloat f, VFloat g => SFltb f g
  | _, _ => false
  end.

Definition float_key (x : value * value) : Prop := exists f, fst x = VFloat f.

Definition prob_lt (p q : nat * spec_float) : bool := SFltb (snd p) (snd q).

(** The (index, probability) pairs kept for a row, in output order. *)
Definition retained (k : Z) (fs : list spec_float) : list (nat * spec_float) :=
  take_upto k (sort_by prob_lt (enum_from 0 fs)).

Definition formatted (p : nat * spec_float) : list (string * value) :=
  entry (Z.of_nat (fst p)) (VStr (format_3f_float (snd p))).

Definition row_result (k : Z) (fs : list spec_float)
  : list (list (string * value)) :=
  map formatted (retained k fs).

Definition unformatted (p : nat * spec_float) : list (string * value) :=
  entry (Z.of_nat (fst p)) (VFloat (snd p)).

(** Where the dictionary of a pair lives when the row's entry list was
    allocated at [b]. *)
Definition entry_loc (b : loc) (p : nat * spec_float) : loc :=
  (b + 1 + fst p)%nat.

(** [v] is a list object above [base] whose items are dictionaries above
    [base] with contents [ds]. *)
Definition entries_at (base : loc) (h : list obj) (v : value)
    (ds : list (list (string * value))) : Prop :=
  exists l es,
    v = VRef l /\ (base < l)%nat /\ h !! l = Some (OList (map VRef es)) /\
    Forall2 (fun e d => (base < e)%nat /\ h !! e = Some (ODict d)) es ds.

(** The result list at [a0]: its items are the entry lists [dss], all
    allocated above [a0]. *)
Definition results_at (a0 : loc) (h : list obj)
    (dss : list (list (list (string * value)))) : Prop :=
  exists rs, h !! a0 = Some (OList rs) /\ Forall2 (entries_at a0 h) rs dss.

(** ** Order and rounding, as the claims speak of them *)

(** [p] comes before [q] in a descending stable order: its probability is
    greater, or equal with a smaller class index. *)
Definition before (p q : nat * spec_float) : Prop :=
  SFcompare (snd p) (snd q) = Some Gt \/
  (SFcompare (snd p) (snd q) = Some Eq /\ (fst p < fst q)%nat).

Fixpoint strongly_sorted (l : list (nat * spec_float)) : Prop :=
  match l with
  | [] => True
  | x :: l' => Forall (before x) l' /\ strongly_sorted l'
  end.

Definition not_nan (f : spec_float) : Prop := f <> S754_nan.

Definition finite (f : spec_float) : Prop :=
  match f with
  | S754_zero _ | S754_finite _ _ _ => True
  | _ => False
  end.

(** A key that orders the floats other than NaN like [SFcompare] does. *)
Definition SFkey (f : spec_float) : Z * Z * Z :=
  match f with
  | S754_zero _ => (0, 0, 0)
  | S754_infinity s => (if s then -2 else 2, 0, 0)
  | S754_nan => (0, 0, 0)
  | S754_finite false m e => (1, e, Zpos m)
  | S754_finite true m e => (-1, - e, Zneg m)
  end.

Definition compare3 (x y : Z * Z * Z) : comparison :=
  match fst (fst x) ?= fst (fst y) with
  | Eq => match snd (fst x) ?= snd (fst y) with
          | Eq => snd x ?= snd y
          | c => c
          end
  | c => c
  end.

(** The magnitude of a finite float as a fraction, and its sign bit. *)
Definition magnitude (f : spec_float) : Z * Z :=
  match f with
  | S754_finite _ m e => if 0 <=? e then (Zpos m * 2 ^ e, 1) else (Zpos m, 2 ^ (- e))
  | _ => (0, 1)
  end.

Definition sign_bit (f : spec_float) : bool :=
  match f with
  | S754_zero s | S754_infinity s | S754_finite s _ _ => s
  | S754_nan => false
  end.

(** [s] writes [f] with exactly three digits after the point: a sign, the
    decimal numeral of an integer part, a point and three digits, and the
    number of thousandths written is a nearest one to the magnitude of [f]. *)
Definition three_decimals (f : spec_float) (s : string) : Prop :=
  exists ip d1 d2 d3 : Z,
    0 <= ip /\ 0 <= d1 <= 9 /\ 0 <= d2 <= 9 /\ 0 <= d3 <= 9 /\
    s = sign_prefix (sign_bit f) +:+ str_of_Z ip +:+ "." +:+
        String (digit_char d1) (String (digit_char d2) (String (digit_char d3) "")) /\
    let q := 1000 * ip + 100 * d1 + 10 * d2 + d3 in
    2 * Z.abs (q * snd (magnitude f) - 1000 * fst (magnitude f))
      <= snd (magnitude f).

(** The entries of a decoded row are in descending order of the source
    probability, equal probabilities in the order of their class indices. *)
Definition descending_stable (fs : list spec_float)
    (ds : list (list (string * value))) : Prop :=
  forall a b da db, (a < b)%nat -> ds !! a = Some da -> ds !! b = Some db ->
  exists i j f g,
    assoc_get "index" da = Some (VInt (Z.of_nat i)) /\
    assoc_get "index" db = Some (VInt (Z.of_nat j)) /\
    fs !! i = Some f /\ fs !! j = Some g /\ before (i, f) (j, g).

(** Every entry of a decoded row carries a class index of the row and the
    probability found there, written with three decimals. *)
Definition probs_three_decimals (fs : list spec_float)
    (ds : list (list (string * value))) : Prop :=
  Forall (fun d => exists i f s,
            assoc_get "index" d = Some (VInt (Z.of_nat i)) /\
            fs !! i = Some f /\
            assoc_get "prob" d = Some (VStr s) /\ three_decimals f s) ds.

(** A decoded row for [fs] under [top_probs = k]: its length, and where
    each entry comes from. *)
Definition decodes_row (k : Z) (fs : list spec_float)
    (ds : list (list (string * value))) : Prop :=
  length ds = Nat.min (Z.to_nat k) (length fs) /\
  Forall (fun d => exists i f,
            fs !! i = Some f /\
            d = entry (Z.of_nat i) (VStr (format_3f_float f))) ds.

(** A class that differs from [cls] at most in [load], [postprocess] and
    [decode_prob]. *)
Definition override_others (cls : methods)
    (load' : instance -> value -> gmap string value -> py value)
    (postprocess' decode_prob' : instance -> value -> py value) : methods := {|
  m_load := load';
  m__predict := m__predict cls;
  m_preprocess := m_preprocess cls;
  m_postprocess := postprocess';
  m_decode_prob := decode_prob'
|}.

(** More sample data: [1.0], [2.0], the row [[1.0, nan, 2.0]] as a nested
    list at location 1, and instances with and without delegates. *)
Definition f1_0 : spec_float := S754_finite false 4503599627370496 (-52).
Definition f2_0 : spec_float := S754_finite false 4503599627370496 (-51).

Definition st_nan : state :=
  State [OList [VFloat f1_0; VFloat S754_nan; VFloat f2_0]; OList [VRef 0%nat]] [].

Definition plain_model (k : Z) : instance := {[ "top_probs" := VInt k ]}.

Definition model_with_delegates : instance :=
  <["preprocessor" := VForeign 1]> (<["preprocessor_name" := VStr "run"]>
  (<["postprocessor" := VForeign 1]> (<["postprocessor_name" := VStr "run"]>
  (<["prob_decoder" := VForeign 1]> (<["prob_decoder_name" := VStr "run"]>
  {[ "top_probs" := VInt 5 ]}))))).

(** ** Vocabulary for the constructor and for method lookup *)

(** A keyword mapping: no key twice. *)
Definition mapping (kwargs : list (string * value)) : Prop :=
  NoDup (map fst kwargs).

(** None of the keys is [self], [__class__], [__dict__] or [__weakref__]. *)
Definition ordinary_keys (kwargs : list (string * value)) : Prop :=
  Forall (fun kv => special_name (fst kv) = false) kwargs.

(** The attribute dictionary after the pairs have been stored in order. *)
Definition with_attributes (self : instance) (kwargs : list (string * value))
  : instance :=
  foldl (fun self kv => <[fst kv := snd kv]> self) self kwargs.

(** [self.m] for the methods [predict] calls: an attribute of the instance
    named like the method shadows the function of the class and is called
    as it is, without [self]. *)
Definition resolve `{Env} (cls : methods) (self : instance) : methods := {|
  m_load := m_load cls;
  m__predict :=
    match self !! "_predict" with
    | Some f => fun _ targets => obj_call f [targets] ∅
    | None => m__predict cls
    end;
  m_preprocess :=
    match self !! "preprocess" with
    | Some f => fun _ raw_targets => obj_call f [raw_targets] ∅
    | None => m_preprocess cls
    end;
  m_postprocess := m_postprocess cls;
  m_decode_prob := m_decode_prob cls
|}.

(** A store holding [[1.0, nan, 2.0], [0.2, 0.7, 0.2]] at location 2: a row
    with a NaN beside a row without, which has two equal probabilities. *)
Definition st_mixed : state :=
  State [OList [VFloat f1_0; VFloat S754_nan; VFloat f2_0];
         OList [VFloat f0_2; VFloat f0_7; VFloat f0_2];
         OList [VRef 0%nat; VRef 1%nat]] [].

(** Every entry of a decoded row carries a class index of the row and, as
    [prob], a string; when the probability found at that index is finite
    the string writes it with three decimals. *)
Definition finite_probs_three_decimals (fs : list spec_float)
    (ds : list (list (string * value))) : Prop :=
  Forall (fun d => exists i f s,
            assoc_get "index" d = Some (VInt (Z.of_nat i)) /\
            fs !! i = Some f /\
            assoc_get "prob" d = Some (VStr s) /\
            (finite f -> three_decimals f s)) ds.

(** ** Further vocabulary for decoded rows *)

(** The class index an entry carries. *)
Definition entry_index (d : list (string * value)) : option Z :=
  match assoc_get "index" d with
  | Some (VInt i) => Some i
  | _ => None
  end.

(** How many items [l[:k]] has when [l] has [n]. *)
Definition slice_length (k : Z) (n : nat) : Z :=
  if k <? 0 then Z.max 0 (Z.of_nat n + k) else Z.min k (Z.of_nat n).

(** A class of the row that has no entry in [ds] does not beat any entry of
    [ds]: the entries are the top of the row. *)
Definition keeps_top (fs : list spec_float) (ds : list (list (string * value)))
  : Prop :=
  forall j g, fs !! j = Some g ->
    (forall d, d ∈ ds -> entry_index d <> Some (Z.of_nat j)) ->
    forall d i f, d ∈ ds -> entry_index d = Some (Z.of_nat i) ->
      fs !! i = Some f ->
      SFcompare f g = Some Gt \/ SFcompare f g = Some Eq.

(** No two entries of [ds] are for the same class. *)
Definition distinct_indices (ds : list (list (string * value))) : Prop :=
  forall a b da db i,
    ds !! a = Some da -> ds !! b = Some db ->
    entry_index da = Some i -> entry_index db = Some i -> a = b.

(** Every class of the row has its entry in [ds]. *)
Definition covers_row (fs : list spec_float) (ds : list (list (string * value)))
  : Prop :=
  forall j f, fs !! j = Some f ->
    entry (Z.of_nat j) (VStr (format_3f_float f)) ∈ ds.

(** Values [iter] rejects. *)
Definition not_iterable (v : value) : Prop :=
  match v with
  | VNone | VInt _ | VFloat _ => True
  | _ => False
  end.

(** ** Further sample environments and data *)

(** Delegates resolve, and fail with [ValueError] when called; any file
    loads as module 1. *)
Definition failing_call_env : Env := {|
  obj_getattr := fun _ _ => ret (VForeign 7);
  obj_call := fun _ _ _ => raise ValueError;
  obj_iter := fun _ => raise TypeError;
  obj_lt := fun _ _ => raise TypeError;
  obj_format := fun _ _ => raise TypeError;
  obj_index := fun _ => raise TypeError;
  import_from_file := fun _ => ret (VForeign 1);
  isinstance_BaseModel := fun _ => false;
  obj_class_attr := fun _ _ => raise AttributeError;
  obj_setattr_special := fun _ _ _ _ => raise TypeError
|}.

(** Any file loads as module 1, which has no attributes. *)
Definition empty_module_env : Env := {|
  obj_getattr := fun _ _ => raise AttributeError;
  obj_call := fun _ _ _ => raise TypeError;
  obj_iter := fun _ => raise TypeError;
  obj_lt := fun _ _ => raise TypeError;
  obj_format := fun _ _ => raise TypeError;
  obj_index := fun _ => raise TypeError;
  import_from_file := fun _ => ret (VForeign 1);
  isinstance_BaseModel := fun _ => false;
  obj_class_attr := fun _ _ => raise AttributeError;
  obj_setattr_special := fun _ _ _ _ => raise TypeError
|}.

(** A store holding the flat list [[0.1, 0.7]] at location 0, and one
    holding the empty list. *)
Definition st_flat : state := State [OList [VFloat f0_1; VFloat f0_7]] [].

Definition st_empty : state := State [OList []] [].

(** * Properties *)

(** ** The monad *)

Lemma bind_ok {A B} (m : py A) (k : A -> py B) st a st' :
  m st = (Ok a, st') -> bind m k st = k a st'.
Proof. unfold bind. intros ->. reflexivity. Qed.

Lemma bind_raise {A B} (m : py A) (k : A -> py B) st e st' :
  m st = (Raise e, st') -> bind m k st = (Raise e, st').
Proof. unfold bind. intros ->. reflexivity. Qed.

Lemma bind_ret {A B} (a : A) (k : A -> py B) st : bind (ret a) k st = k a st.
Proof. reflexivity. Qed.

Lemma try_caught {A} (body handler : py A) st st' :
  body st = (Raise AttributeError, st') ->
  try_except_AttributeError body handler st = handler st'.
Proof. unfold try_except_AttributeError. intros ->. reflexivity. Qed.

Lemma self_attr_None `{Env} self name st :
  self !! name = None -> class_provides name = false ->
  self_attr self name st = (Raise AttributeError, st).
Proof. unfold self_attr. intros -> ->. reflexivity. Qed.

Lemma self_attr_Some `{Env} self name v st :
  self !! name = Some v -> data_descriptor name = false ->
  self_attr self name st = (Ok v, st).
Proof. unfold self_attr. intros -> ->. reflexivity. Qed.

Lemma class_provides_data_descriptor name :
  class_provides name = false -> data_descriptor name = false.
Proof.
  unfold class_provides, data_descriptor. intros [Hd _]%orb_false_elim.
  destruct (String.eqb_spec name "__class__") as [->|]; [done|].
  destruct (String.eqb_spec name "__dict__") as [->|]; [done|].
  by destruct (String.eqb_spec name "__weakref__") as [->|].
Qed.

(** A delegate call raises [AttributeError] before anything foreign runs
    when an attribute it needs is missing. *)
Lemma missing_delegate_raises `{Env} {A} self obj_attr name_attr
    (k : value -> value -> py A) st :
  class_provides obj_attr = false -> class_provides name_attr = false ->
  no_delegate self obj_attr name_attr ->
  (let* p := self_attr self obj_attr in
   let* n := self_attr self name_attr in
   k p n) st = (Raise AttributeError, st).
Proof.
  intros Hco Hcn [Hp | Hn].
  - by apply bind_raise, self_attr_None.
  - destruct (self !! obj_attr) as [p|] eqn:Hp.
    + erewrite bind_ok
        by (by apply self_attr_Some, class_provides_data_descriptor).
      by apply bind_raise, self_attr_None.
    + by apply bind_raise, self_attr_None.
Qed.

(** ** Store bookkeeping *)

Lemma insert_middle (h : list obj) x y l :
  <[length h := y]> (h ++ x :: l) = h ++ y :: l.
Proof.
  rewrite insert_app_r_alt by lia. by rewrite Nat.sub_diag.
Qed.

Lemma lookup_middle (h : list obj) x l : (h ++ x :: l) !! length h = Some x.
Proof. by apply list_lookup_middle. Qed.

Lemma enum_from_lookup fs i0 j :
  enum_from i0 fs !! j = (fun f => ((i0 + j)%nat, f)) <$> fs !! j.
Proof.
  revert i0 j. induction fs as [|f fs IH]; intros i0 [|j]; simpl; try done.
  - by rewrite Nat.add_0_r.
  - rewrite IH. by replace (S i0 + j)%nat with (i0 + S j)%nat by lia.
Qed.

Lemma enum_from_length fs i0 : length (enum_from i0 fs) = length fs.
Proof. revert i0. induction fs; intros; simpl; auto. Qed.

Lemma enum_lookup_self fs p :
  p ∈ enum_from 0 fs -> enum_from 0 fs !! fst p = Some p.
Proof.
  intros [j Hj]%list_elem_of_lookup.
  pose proof Hj as Hj'. rewrite enum_from_lookup in Hj'.
  destruct (fs !! j) as [f|] eqn:E; simplify_eq/=. exact Hj.
Qed.

Lemma enum_elem fs p : p ∈ enum_from 0 fs -> fs !! fst p = Some (snd p).
Proof.
  intros [j Hj]%list_elem_of_lookup. rewrite enum_from_lookup in Hj.
  destruct (fs !! j) as [f|] eqn:E; simplify_eq/=. exact E.
Qed.

Lemma enum_NoDup fs i0 : NoDup (map fst (enum_from i0 fs)).
Proof.
  apply NoDup_alt. intros a b x Ha Hb.
  rewrite list_lookup_fmap, enum_from_lookup in Ha, Hb.
  destruct (fs !! a), (fs !! b); simplify_eq/=. lia.
Qed.

(** ** Running the primitive operations *)

Lemma for_each_cons {A} (x : A) xs body :
  for_each (x :: xs) body = (body x ;; for_each xs body).
Proof. reflexivity. Qed.

Lemma alloc_run o h w :
  alloc o (State h w) = (Ok (VRef (length h)), State (h ++ [o]) w).
Proof. reflexivity. Qed.

Lemma list_append_run a x items h w :
  h !! a = Some (OList items) ->
  list_append (VRef a) x (State h w)
  = (Ok tt, State (<[a := OList (items ++ [x])]> h) w).
Proof. intros Ha. unfold list_append, bind, deref. simpl. by rewrite Ha. Qed.

Lemma getitem_run a k v fields h w :
  h !! a = Some (ODict fields) -> assoc_get k fields = Some v ->
  getitem (VRef a) k (State h w) = (Ok v, State h w).
Proof.
  intros Ha Hk. unfold getitem, bind, deref. simpl. by rewrite Ha, Hk.
Qed.

Lemma setitem_run a k v fields h w :
  h !! a = Some (ODict fields) ->
  setitem (VRef a) k v (State h w)
  = (Ok tt, State (<[a := ODict (assoc_set k v fields)]> h) w).
Proof. intros Ha. unfold setitem, bind, deref. simpl. by rewrite Ha. Qed.

Lemma py_iter_list_run `{Env} l items h w :
  h !! l = Some (OList items) ->
  py_iter (VRef l) (State h w) = (Ok items, State h w).
Proof. intros Hl. unfold py_iter, bind, deref. simpl. by rewrite Hl. Qed.

Ltac run_with lem := erewrite bind_ok; [| by (eapply lem; eauto)].

(** ** Sorting float keys is pure *)

Lemma insert_by_Forall {A} (P : A -> Prop) lt x l :
  P x -> Forall P l -> Forall P (insert_by lt x l).
Proof.
  intros Hx Hl. induction Hl as [|y l Hy Hl IH]; simpl.
  - by constructor.
  - destruct (lt x y); repeat constructor; auto.
Qed.

Lemma sort_by_Forall {A} (P : A -> Prop) lt l :
  Forall P l -> Forall P (sort_by lt l).
Proof.
  induction 1; simpl; [constructor | by apply insert_by_Forall].
Qed.

Lemma insert_by_map {A B} (g : A -> B) ltA ltB x l :
  (forall a b, ltB (g a) (g b) = ltA a b) ->
  insert_by ltB (g x) (map g l) = map g (insert_by ltA x l).
Proof.
  intros Hg. induction l as [|y l IH]; simpl; [done|].
  rewrite Hg. destruct (ltA x y); simpl; by rewrite ?IH.
Qed.

Lemma sort_by_map {A B} (g : A -> B) ltA ltB l :
  (forall a b, ltB (g a) (g b) = ltA a b) ->
  sort_by ltB (map g l) = map g (sort_by ltA l).
Proof.
  intros Hg. induction l as [|x l IH]; simpl; [done|].
  rewrite IH. by apply insert_by_map.
Qed.

Lemma insert_by_perm {A} (lt : A -> A -> bool) x l : insert_by lt x l ≡ₚ x :: l.
Proof.
  induction l as [|y l IH]; simpl; [done|].
  destruct (lt x y); [|done]. rewrite IH. apply Permutation_swap.
Qed.

Lemma sort_by_perm {A} (lt : A -> A -> bool) l : sort_by lt l ≡ₚ l.
Proof.
  induction l as [|x l IH]; simpl; [done|].
  rewrite insert_by_perm. by constructor.
Qed.

Lemma take_upto_sublist {A} k (l : list A) : take_upto k l `sublist_of` l.
Proof. unfold take_upto. destruct (k <? 0); apply sublist_take. Qed.

Lemma take_upto_map {A B} (g : A -> B) k l :
  take_upto k (map g l) = map g (take_upto k l).
Proof.
  unfold take_upto. rewrite length_map.
  destruct (k <? 0); symmetry; apply fmap_take.
Qed.

Section Row.
Context `{Env}.

Lemma py_lt_floats x y st :
  float_key x -> float_key y ->
  py_lt (fst x) (fst y) st = (Ok (key_lt x y), st).
Proof. intros [f Hf] [g Hg]. unfold key_lt. by rewrite Hf, Hg. Qed.

Lemma insert_desc_pure x l st :
  float_key x -> Forall float_key l ->
  insert_desc x l st = (Ok (insert_by key_lt x l), st).
Proof.
  intros Hx Hl. induction Hl as [|y l Hy Hl IH]; [done|].
  cbn [insert_desc insert_by].
  erewrite bind_ok by (by apply py_lt_floats).
  destruct (key_lt x y); [|done].
  by erewrite bind_ok by exact IH.
Qed.

Lemma sort_desc_pure l st :
  Forall float_key l -> sort_desc l st = (Ok (sort_by key_lt l), st).
Proof.
  induction 1 as [|x l Hx Hl IH]; [done|].
  cbn [sort_desc sort_by]. erewrite bind_ok by exact IH.
  apply insert_desc_pure; [done|]. by apply sort_by_Forall.
Qed.

(** Reading one field of each dictionary of a list. *)
Lemma map_py_getitem k h w refs vals :
  Forall2 (fun r v => exists a fields,
             r = VRef a /\ h !! a = Some (ODict fields) /\
             assoc_get k fields = Some v) refs vals ->
  map_py (fun e => getitem e k) refs (State h w) = (Ok vals, State h w).
Proof.
  induction 1 as [|r v refs vals (a & fields & -> & Ha & Hk) _ IH]; [done|].
  cbn [map_py]. run_with getitem_run.
  by erewrite bind_ok by exact IH.
Qed.

(** The loop of lines 150-153 fills the entry list at [length h] and puts
    one dictionary per cell behind it. *)
Lemma build_entries fs : forall i0 h acc ds w,
  length ds = i0 ->
  for_each (enumerate_from (Z.of_nat i0) (map VFloat fs))
    (fun ip =>
       let* e := alloc (ODict [("index", VInt (fst ip));
                               ("name", VStr (str_of_Z (fst ip)));
                               ("prob", snd ip)]) in
       list_append (VRef (length h)) e)
    (State (h ++ OList acc :: ds) w)
  = (Ok tt,
     State (h ++ OList (acc ++ map (fun p => VRef (entry_loc (length h) p))
                                   (enum_from i0 fs))
              :: ds ++ map (fun p => ODict (unformatted p)) (enum_from i0 fs)) w).
Proof.
  induction fs as [|f fs IH]; intros i0 h acc ds w Hds.
  - simpl. by rewrite !app_nil_r.
  - cbn [map enumerate_from enum_from]. rewrite for_each_cons.
    erewrite bind_ok; cycle 1.
    { run_with alloc_run. apply list_append_run.
      rewrite <- app_assoc, <- app_comm_cons. apply lookup_middle. }
    rewrite <- app_assoc, <- app_comm_cons, insert_middle.
    replace (Z.of_nat i0 + 1) with (Z.of_nat (S i0)) by lia.
    rewrite IH by (rewrite length_app; simpl; lia).
    rewrite <- !app_assoc. cbn [map app fst snd].
    rewrite length_app. cbn [length]. unfold entry_loc at 1, unformatted at 1.
    cbn [fst snd]. rewrite Hds.
    replace (length h + S i0)%nat with (length h + 1 + i0)%nat by lia.
    reflexivity.
Qed.

(** The loop of lines 159-160 rewrites, in place, the [prob] field of
    exactly the dictionaries it is given. *)
Lemma format_loop b R : forall h w,
  NoDup (map fst R) ->
  (forall p, p ∈ R -> h !! entry_loc b p = Some (ODict (unformatted p))) ->
  exists h',
    for_each (map (fun p => VRef (entry_loc b p)) R)
      (fun entry =>
         let* p := getitem entry "prob" in
         let* s := format_3f p in
         setitem entry "prob" (VStr s))
      (State h w) = (Ok tt, State h' w) /\
    length h' = length h /\
    (forall p, p ∈ R -> h' !! entry_loc b p = Some (ODict (formatted p))) /\
    (forall a, (forall p, p ∈ R -> a <> entry_loc b p) -> h' !! a = h !! a).
Proof.
  induction R as [|x R IH]; intros h w Hnd Hraw.
  - exists h. repeat split; try done. intros p Hp. by apply elem_of_nil in Hp.
  - cbn [map] in Hnd. apply NoDup_cons in Hnd as [Hx Hnd].
    assert (Hlx : h !! entry_loc b x = Some (ODict (unformatted x)))
      by (apply Hraw; left).
    set (h1 := <[entry_loc b x := ODict (formatted x)]> h).
    destruct (IH h1 w Hnd) as (h' & Hrun & Hlen & Hfmt & Hframe).
    { intros p Hp. unfold h1. rewrite list_lookup_insert_ne.
      - apply Hraw. by right.
      - unfold entry_loc. intros Heq. apply Hx.
        replace (fst x) with (fst p) by lia.
        apply list_elem_of_fmap. by exists p. }
    exists h'. split; [|split; [|split]].
    + cbn [map]. rewrite for_each_cons.
      erewrite bind_ok; [exact Hrun|].
      run_with getitem_run. cbn [format_3f]. rewrite bind_ret.
      erewrite setitem_run by exact Hlx. reflexivity.
    + rewrite Hlen. apply length_insert.
    + intros p [-> | Hp]%elem_of_cons; [|by apply Hfmt].
      rewrite Hframe.
      * unfold h1. apply list_lookup_insert_eq. by eapply lookup_lt_Some.
      * intros p Hp Heq. apply Hx. unfold entry_loc in Heq.
        replace (fst x) with (fst p) by lia.
        apply list_elem_of_fmap. by exists p.
    + intros a Ha. rewrite Hframe.
      * unfold h1. apply list_lookup_insert_ne. intros Heq. by eapply Ha; [left|].
      * intros p Hp. apply Ha. by right.
Qed.

Lemma zip_map_same {A B C} (f : A -> B) (g : A -> C) (l : list A) :
  zip (map f l) (map g l) = map (fun x => (f x, g x)) l.
Proof. induction l; simpl; congruence. Qed.

Lemma map_snd_pair {A B C} (f : A -> B) (g : A -> C) (l : list A) :
  map snd (map (fun x => (f x, g x)) l) = map g l.
Proof. induction l; simpl; congruence. Qed.

Lemma enum_fst_lt fs p : p ∈ enum_from 0 fs -> (fst p < length fs)%nat.
Proof. intros Hp%enum_elem. by eapply lookup_lt_Some. Qed.

(** The dictionary of a pair sits at its [entry_loc]. *)
Lemma lookup_entry (h : list obj) x fs tail p :
  p ∈ enum_from 0 fs ->
  (h ++ x :: map (fun p => ODict (unformatted p)) (enum_from 0 fs) ++ tail)
    !! entry_loc (length h) p = Some (ODict (unformatted p)).
Proof.
  intros Hp. unfold entry_loc.
  rewrite lookup_app_r by lia.
  replace (length h + 1 + fst p - length h)%nat with (S (fst p)) by lia.
  cbn [lookup list_lookup]. apply lookup_app_l_Some.
  rewrite list_lookup_fmap, (enum_lookup_self _ _ Hp). reflexivity.
Qed.

Lemma retained_elem k fs p : p ∈ retained k fs -> p ∈ enum_from 0 fs.
Proof.
  unfold retained. intros Hp.
  apply (sublist_subseteq _ _ (take_upto_sublist _ _)) in Hp.
  by rewrite sort_by_perm in Hp.
Qed.

Lemma retained_NoDup k fs : NoDup (map fst (retained k fs)).
Proof.
  unfold retained.
  apply (sublist_NoDup _ (map fst (sort_by prob_lt (enum_from 0 fs)))).
  - rewrite sort_by_perm. apply enum_NoDup.
  - apply fmap_sublist, take_upto_sublist.
Qed.

(** One iteration of the loop over the rows, on a row of floats: the new
    objects are appended to the store, [results] gains one item, and that
    item is the list of the formatted dictionaries of [row_result]. *)
Lemma decode_row_spec self k a0 rs r fs st :
  self !! "top_probs" = Some (VInt k) ->
  heap st !! a0 = Some (OList rs) ->
  heap st !! r = Some (OList (map VFloat fs)) ->
  exists blk l,
    let h' := <[a0 := OList (rs ++ [VRef l])]> (heap st ++ blk) in
    BaseModel.decode_row self (VRef a0) (VRef r) st
    = (Ok tt, State h' (warnings st)) /\
    entries_at a0 h' (VRef l) (row_result k fs).
Proof.
  destruct st as [h w]. cbn [heap warnings]. intros Htop Ha0 Hr.
  set (E := enum_from 0 fs).
  set (ref := fun p : nat * spec_float => VRef (entry_loc (length h) p)).
  set (raw := fun p : nat * spec_float => ODict (unformatted p)).
  set (S := sort_by prob_lt E).
  set (R := retained k fs).
  set (H3 := h ++ OList (map ref E) :: map raw E
               ++ [OList (map ref S); OList (map ref R)]).
  assert (HlenH3 : length H3 = (length h + length fs + 3)%nat).
  { unfold H3. rewrite length_app. cbn [length]. rewrite length_app, length_map.
    unfold E. rewrite enum_from_length. simpl. lia. }
  assert (Ha0lt : (a0 < length h)%nat) by (by eapply lookup_lt_Some).
  destruct (format_loop (length h) R H3 w (retained_NoDup k fs))
    as (h' & Hrun & Hlen & Hfmt & Hframe).
  { intros p Hp%retained_elem. unfold H3. by apply lookup_entry. }
  assert (Hlow : forall i, (i < length h)%nat -> h' !! i = h !! i).
  { intros i Hi. rewrite Hframe.
    - unfold H3. by apply lookup_app_l.
    - intros p _. unfold entry_loc. lia. }
  exists (drop (length h) h'), (length h + length fs + 2)%nat.
  assert (Hh' : h ++ drop (length h) h' = h').
  { apply list_eq. intros i. destruct (decide (i < length h)%nat).
    - rewrite lookup_app_l by done. by rewrite Hlow.
    - rewrite lookup_app_r by lia. rewrite lookup_drop. f_equal. lia. }
  rewrite Hh'. split.
  - unfold BaseModel.decode_row.
    run_with alloc_run.
    erewrite bind_ok; cycle 1.
    { apply py_iter_list_run. by apply lookup_app_l_Some. }
    erewrite bind_ok; [|exact (build_entries fs 0 h [] [] w eq_refl)].
    cbn [app]. fold E. fold ref. fold raw.
    erewrite bind_ok; cycle 1.
    { unfold sorted_by_key_desc.
      erewrite bind_ok; [|apply py_iter_list_run, lookup_middle].
      erewrite bind_ok; cycle 1.
      { apply (map_py_getitem _ _ _ _ (map (fun p => VFloat (snd p)) E)).
        apply Forall2_fmap, Forall_Forall2_diag, Forall_forall.
        intros p Hp. exists (entry_loc (length h) p), (unformatted p).
        split; [done|]. split; [|done].
        pose proof (lookup_entry h (OList (map ref E)) fs [] p Hp) as Hl.
        by rewrite app_nil_r in Hl. }
      rewrite zip_map_same.
      erewrite bind_ok; cycle 1.
      { apply sort_desc_pure. apply Forall_fmap, Forall_forall.
        intros p _. by exists (snd p). }
      rewrite (sort_by_map _ prob_lt) by done. fold S.
      rewrite map_snd_pair. apply alloc_run. }
    run_with self_attr_Some.
    erewrite bind_ok; cycle 1.
    { unfold slice_upto.
      erewrite bind_ok; [|apply py_iter_list_run, lookup_middle].
      rewrite bind_ret. rewrite take_upto_map. apply alloc_run. }
    erewrite bind_ok; [|apply py_iter_list_run, lookup_middle].
    change (take_upto k S) with R.
    assert (Heq : ((h ++ OList (map ref E) :: map raw E) ++ [OList (map ref S)])
                  ++ [OList (map ref R)] = H3).
    { unfold H3. rewrite <- !app_assoc. reflexivity. }
    rewrite Heq.
    erewrite bind_ok; [|exact Hrun].
    erewrite list_append_run by (by rewrite Hlow).
    do 7 f_equal. rewrite !length_app. cbn [length].
    rewrite length_map. unfold E. rewrite enum_from_length. lia.
  - exists (length h + length fs + 2)%nat, (map (entry_loc (length h)) R).
    split; [done|]. split; [lia|]. split.
    + rewrite list_lookup_insert_ne by lia. rewrite Hframe.
      * unfold H3. rewrite map_map. change (map _ R) with (map ref R).
        replace (OList (map ref E) :: map raw E ++ [OList (map ref S); OList (map ref R)])
          with ((OList (map ref E) :: map raw E ++ [OList (map ref S)]) ++ [OList (map ref R)])
          by (by rewrite <- app_comm_cons, <- app_assoc).
        rewrite app_assoc. 
        replace (length h + length fs + 2)%nat
          with (length (h ++ OList (map ref E) :: map raw E ++ [OList (map ref S)])).
        { apply lookup_middle. }
        rewrite length_app. cbn [length]. rewrite length_app, length_map.
        unfold E. rewrite enum_from_length. simpl. lia.
      * intros p Hp%retained_elem%enum_fst_lt. unfold entry_loc. lia.
    + unfold row_result. apply Forall2_fmap, Forall_Forall2_diag, Forall_forall.
      intros p Hp. unfold entry_loc at 1. split; [lia|].
      rewrite list_lookup_insert_ne by (unfold entry_loc; lia).
      by apply Hfmt.
Qed.

Lemma entries_at_mono a0 h h' v ds :
  entries_at a0 h v ds ->
  (forall x, (a0 < x)%nat -> (x < length h)%nat -> h' !! x = h !! x) ->
  entries_at a0 h' v ds.
Proof.
  intros (l & es & -> & Hl & Hlist & Hes) Hsame.
  exists l, es. split; [done|]. split; [done|]. split.
  - rewrite Hsame; [done|done|]. by eapply lookup_lt_Some.
  - eapply Forall2_impl; [exact Hes|]. intros e d [He Hd]. split; [done|].
    rewrite Hsame; [done|done|]. by eapply lookup_lt_Some.
Qed.

Lemma entries_at_read a0 h v ds :
  entries_at a0 h v ds -> read_entries h v = Some ds.
Proof.
  intros (l & es & -> & _ & Hlist & Hes).
  unfold read_entries, read_list. rewrite Hlist. simpl.
  apply mapM_Some, Forall2_fmap_l.
  eapply Forall2_impl; [exact Hes|]. intros e d [_ Hd].
  unfold compose, read_dict. simpl. by rewrite Hd.
Qed.

Lemma results_at_read a0 h dss :
  results_at a0 h dss -> read_results h (VRef a0) = Some dss.
Proof.
  intros (rs & Ha0 & Hrs). unfold read_results, read_list. rewrite Ha0. simpl.
  apply mapM_Some. eapply Forall2_impl; [exact Hrs|].
  intros v ds. apply entries_at_read.
Qed.

(** The loop over the rows. *)
Lemma decode_rows_spec self k h0 rvs rows :
  self !! "top_probs" = Some (VInt k) ->
  Forall2 (fun rv fs => read_list h0 rv = Some (map VFloat fs)) rvs rows ->
  forall rs done ext w,
  Forall2 (entries_at (length h0) (h0 ++ OList rs :: ext)) rs done ->
  exists rs' ext',
    for_each rvs (BaseModel.decode_row self (VRef (length h0)))
      (State (h0 ++ OList rs :: ext) w)
    = (Ok tt, State (h0 ++ OList (rs ++ rs') :: ext') w) /\
    Forall2 (entries_at (length h0) (h0 ++ OList (rs ++ rs') :: ext'))
      (rs ++ rs') (done ++ map (row_result k) rows).
Proof.
  intros Htop Hrows.
  induction Hrows as [|rv fs rvs rows Hrv _ IH]; intros rs done ext w Hdone.
  - exists [], ext. rewrite !app_nil_r. by split.
  - destruct rv as [| | | |r|]; try done. unfold read_list in Hrv.
    destruct (h0 !! r) as [[items|]|] eqn:Hr; simplify_eq.
    destruct (decode_row_spec self k (length h0) rs r fs
                (State (h0 ++ OList rs :: ext) w) Htop)
      as (blk & l & Hrun & Hnew); cbn [heap warnings] in *.
    { apply lookup_middle. }
    { by apply lookup_app_l_Some. }
    assert (Hform : <[length h0 := OList (rs ++ [VRef l])]>
                      ((h0 ++ OList rs :: ext) ++ blk)
                    = h0 ++ OList (rs ++ [VRef l]) :: (ext ++ blk)).
    { rewrite <- app_assoc, <- app_comm_cons. apply insert_middle. }
    destruct (IH (rs ++ [VRef l]) (done ++ [row_result k fs]) (ext ++ blk) w)
      as (rs' & ext' & Hrest & Hall).
    { rewrite <- Hform. apply Forall2_app; [|by repeat constructor].
      eapply Forall2_impl; [exact Hdone|]. intros v ds Hv.
      eapply entries_at_mono; [exact Hv|]. intros x Hx Hlt.
      rewrite list_lookup_insert_ne by lia. by apply lookup_app_l. }
    exists (VRef l :: rs'), ext'. rewrite for_each_cons.
    erewrite bind_ok by exact Hrun. rewrite Hform, Hrest.
    rewrite <- !app_assoc in Hall. by rewrite <- !app_assoc in *.
Qed.

(** The default decoding of an array of floats returns a new list at the
    end of the store, leaves every existing object as it was, adds no
    warning, and the new list holds [row_result] of each row. *)
Lemma default_decode_floats self k st arr rows :
  self !! "top_probs" = Some (VInt k) ->
  float_array (heap st) arr rows ->
  exists ext,
    BaseModel.default_decode self arr st
    = (Ok (VRef (length (heap st))), State (heap st ++ ext) (warnings st)) /\
    results_at (length (heap st)) (heap st ++ ext) (map (row_result k) rows).
Proof.
  destruct st as [h w]. cbn [heap warnings]. intros Htop Harr.
  unfold float_array, read_array in Harr.
  destruct (read_list h arr) as [rvs|] eqn:Hlist; [|done]. simpl in Harr.
  apply mapM_Some, Forall2_fmap_r in Harr.
  destruct arr as [| | | |a|]; try done. unfold read_list in Hlist.
  destruct (h !! a) as [[items|]|] eqn:Ha; simplify_eq/=.
  destruct (decode_rows_spec self k h rvs rows Htop Harr [] [] [] w)
    as (rs' & ext' & Hrun & Hall); [constructor|].
  exists (OList rs' :: ext'). split.
  - unfold BaseModel.default_decode. run_with alloc_run.
    erewrite bind_ok; cycle 1.
    { apply py_iter_list_run. by apply lookup_app_l_Some. }
    erewrite bind_ok by exact Hrun. reflexivity.
  - exists rs'. split; [apply lookup_middle | exact Hall].
Qed.

End Row.

(** ** Floats other than NaN are totally preordered *)

Lemma SFcompare_key f g :
  not_nan f -> not_nan g -> SFcompare f g = Some (compare3 (SFkey f) (SFkey g)).
Proof.
  intros Hf Hg. unfold compare3.
  destruct f as [s1|s1| |s1 m1 e1], g as [s2|s2| |s2 m2 e2]; try done;
    try (destruct s1); try (destruct s2); try reflexivity; cbn.
  - rewrite Z.compare_opp, (Z.compare_antisym e1 e2).
    destruct (e1 ?= e2); reflexivity.
Qed.

Lemma compare3_ge x y :
  compare3 x y <> Lt <->
  (x.1.1 > y.1.1 \/ (x.1.1 = y.1.1 /\
    (x.1.2 > y.1.2 \/ (x.1.2 = y.1.2 /\ x.2 >= y.2)))).
Proof.
  destruct x as [[x1 x2] x3], y as [[y1 y2] y3].
  unfold compare3; cbn [fst snd].
  destruct (Z.compare_spec x1 y1), (Z.compare_spec x2 y2),
    (Z.compare_spec x3 y3); split; intros; try done; lia.
Qed.

Lemma compare3_trans_ge x y z :
  compare3 x y <> Lt -> compare3 y z <> Lt -> compare3 x z <> Lt.
Proof. rewrite !compare3_ge. lia. Qed.

Lemma compare3_antisym x y : compare3 y x = CompOpp (compare3 x y).
Proof.
  destruct x as [[x1 x2] x3], y as [[y1 y2] y3].
  unfold compare3; cbn [fst snd].
  rewrite (Z.compare_antisym x1 y1), (Z.compare_antisym x2 y2),
    (Z.compare_antisym x3 y3).
  destruct (x1 ?= y1), (x2 ?= y2), (x3 ?= y3); reflexivity.
Qed.

Lemma SFcompare_ge_trans f g h :
  not_nan f -> not_nan g -> not_nan h ->
  SFcompare f g <> Some Lt -> SFcompare g h <> Some Lt ->
  SFcompare f h <> Some Lt.
Proof.
  intros Hf Hg Hh. rewrite !SFcompare_key by done.
  intros H1 H2 [= H3].
  apply (compare3_trans_ge (SFkey f) (SFkey g) (SFkey h)); congruence.
Qed.

Lemma SFcompare_Lt_Gt f g :
  not_nan f -> not_nan g -> SFcompare f g = Some Lt -> SFcompare g f = Some Gt.
Proof.
  intros Hf Hg. rewrite !SFcompare_key by done.
  rewrite (compare3_antisym (SFkey f)). by intros [= ->].
Qed.

Lemma before_not_Lt p q : before p q -> SFcompare (snd p) (snd q) <> Some Lt.
Proof. intros [H|[H _]]; by rewrite H. Qed.

Lemma not_Lt_before p q :
  not_nan (snd p) -> not_nan (snd q) -> (fst p < fst q)%nat ->
  SFcompare (snd p) (snd q) <> Some Lt -> before p q.
Proof.
  intros Hp Hq Hlt Hc. rewrite SFcompare_key in Hc by done.
  unfold before. rewrite SFcompare_key by done.
  destruct (compare3 _ _); [by right | done | by left].
Qed.

(** ** The insertion sort orders a row of floats without NaN *)

Lemma insert_by_sorted x l :
  not_nan (snd x) -> Forall (fun y => not_nan (snd y)) l ->
  Forall (fun y => (fst x < fst y)%nat) l ->
  strongly_sorted l -> strongly_sorted (insert_by prob_lt x l).
Proof.
  intros Hx. induction l as [|y l IH]; intros Hnan Hidx Hs.
  - by repeat constructor.
  - apply Forall_cons in Hnan as [Hy Hnan].
    apply Forall_cons in Hidx as [Hxy Hidx].
    destruct Hs as [Hyl Hs]. cbn [insert_by].
    destruct (prob_lt x y) eqn:Hlt; unfold prob_lt, SFltb in Hlt.
    + split; [|by apply IH].
      apply insert_by_Forall; [|done]. left.
      apply SFcompare_Lt_Gt; try done.
      by destruct (SFcompare (snd x) (snd y)) as [[]|].
    + assert (Hge : SFcompare (snd x) (snd y) <> Some Lt).
      { intros Hc. by rewrite Hc in Hlt. }
      split; [|by split].
      constructor; [by apply not_Lt_before|].
      rewrite Forall_forall in Hyl, Hnan, Hidx |- *. intros z Hz.
      apply not_Lt_before; auto.
      eapply (SFcompare_ge_trans _ (snd y)); auto.
      by apply before_not_Lt, Hyl.
Qed.

Lemma enum_from_fst_ge fs i0 : Forall (fun p => (i0 <= fst p)%nat) (enum_from i0 fs).
Proof.
  revert i0. induction fs as [|f fs IH]; intros i0; simpl; constructor; [done|].
  eapply Forall_impl; [apply IH|]. simpl. lia.
Qed.

Lemma enum_from_snd fs i0 : map snd (enum_from i0 fs) = fs.
Proof. revert i0. induction fs; intros; simpl; congruence. Qed.

Lemma sort_by_sorted fs i0 :
  Forall not_nan fs -> strongly_sorted (sort_by prob_lt (enum_from i0 fs)).
Proof.
  revert i0. induction fs as [|f fs IH]; intros i0 Hnan; [done|].
  apply Forall_cons in Hnan as [Hf Hnan]. cbn [enum_from sort_by].
  apply insert_by_sorted; [done| | |by apply IH].
  - rewrite sort_by_perm. rewrite <- (enum_from_snd fs (S i0)) in Hnan.
    exact (proj1 (Forall_fmap _ _ _) Hnan).
  - rewrite sort_by_perm. eapply Forall_impl; [apply enum_from_fst_ge|].
    simpl. lia.
Qed.

Lemma strongly_sorted_lookup l a b p q :
  strongly_sorted l -> (a < b)%nat ->
  l !! a = Some p -> l !! b = Some q -> before p q.
Proof.
  revert a b. induction l as [|x l IH]; intros a b Hs Hab Ha Hb; [done|].
  destruct Hs as [Hx Hs]. destruct b as [|b]; [lia|]. cbn in Hb.
  destruct a as [|a]; cbn in Ha.
  - simplify_eq. rewrite Forall_forall in Hx. apply Hx.
    by eapply list_elem_of_lookup_2.
  - apply (IH a b); auto with lia.
Qed.

Lemma take_upto_lookup {A} k (l : list A) i x :
  take_upto k l !! i = Some x -> l !! i = Some x.
Proof.
  unfold take_upto. destruct (k <? 0); intros H%lookup_take_Some; tauto.
Qed.

(** The pairs kept for a row come out in descending, stable order. *)
Lemma retained_sorted k fs a b p q :
  Forall not_nan fs -> (a < b)%nat ->
  retained k fs !! a = Some p -> retained k fs !! b = Some q -> before p q.
Proof.
  intros Hnan Hab Ha%take_upto_lookup Hb%take_upto_lookup.
  eapply strongly_sorted_lookup; eauto. by apply sort_by_sorted.
Qed.

Lemma sort_by_length {A} (lt : A -> A -> bool) l :
  length (sort_by lt l) = length l.
Proof. by rewrite sort_by_perm. Qed.

Lemma retained_length k fs :
  0 < k -> length (retained k fs) = Nat.min (Z.to_nat k) (length fs).
Proof.
  intros Hk. unfold retained, take_upto.
  destruct (Z.ltb_spec k 0); [lia|].
  by rewrite length_take, sort_by_length, enum_from_length.
Qed.

(** ** Formatting with three decimals *)

Lemma round_half_even_nearest num den :
  0 < den -> 2 * Z.abs (round_half_even num den * den - num) <= den.
Proof.
  intros Hden. unfold round_half_even.
  pose proof (Z.div_mod num den ltac:(lia)) as Hdm.
  pose proof (Z.mod_pos_bound num den Hden) as Hr.
  destruct (Z.compare_spec (2 * (num mod den)) den) as [Heq|Hlt|Hgt];
    [destruct (Z.even (num / den))| |]; nia.
Qed.

Lemma round_half_even_nonneg num den :
  0 <= num -> 0 < den -> 0 <= round_half_even num den.
Proof.
  intros Hnum Hden. unfold round_half_even.
  pose proof (Z.div_pos num den Hnum Hden).
  destruct (_ ?= _); [destruct (Z.even _)| |]; lia.
Qed.

Lemma thousandths_nonneg m e : 0 <= thousandths m e.
Proof.
  unfold thousandths. destruct (Z.leb_spec 0 e).
  - pose proof (Z.pow_pos_nonneg 2 e). nia.
  - apply round_half_even_nonneg; [lia|]. apply Z.pow_pos_nonneg; lia.
Qed.

Lemma digits_of q :
  0 <= q ->
  0 <= q / 1000 /\ 0 <= q / 100 mod 10 <= 9 /\ 0 <= q / 10 mod 10 <= 9 /\
  0 <= q mod 10 <= 9 /\
  1000 * (q / 1000) + 100 * (q / 100 mod 10) + 10 * (q / 10 mod 10) + q mod 10 = q.
Proof. intros Hq. Z.div_mod_to_equations. lia. Qed.

Lemma format_three_decimals f :
  finite f -> three_decimals f (format_3f_float f).
Proof.
  destruct f as [s| | |s m e]; try done; intros _.
  - exists 0, 0, 0, 0. repeat split; try lia. simpl. lia.
  - pose proof (thousandths_nonneg m e) as Hq.
    destruct (digits_of _ Hq) as (Hip & Hd1 & Hd2 & Hd3 & Hsum).
    exists (thousandths m e / 1000), (thousandths m e / 100 mod 10),
      (thousandths m e / 10 mod 10), (thousandths m e mod 10).
    repeat split; try lia. cbv zeta. rewrite Hsum.
    unfold magnitude, thousandths. destruct (Z.leb_spec 0 e); cbn [fst snd].
    + lia.
    + rewrite (Z.mul_comm 1000).
      apply round_half_even_nearest, Z.pow_pos_nonneg; lia.
Qed.

(** ** The constructor *)

Lemma setattr_ordinary `{Env} self key v st :
  special_name key = false ->
  setattr self key v st = (Ok (Stored (<[key := v]> self)), st).
Proof.
  unfold special_name, data_descriptor, setattr.
  intros [_ Hd]%orb_false_elim.
  apply orb_false_elim in Hd as [Hd Hw]. apply orb_false_elim in Hd as [Hc Hd].
  by rewrite Hw, Hc, Hd.
Qed.

Lemma set_attributes_ordinary `{Env} kwargs : forall self st,
  ordinary_keys kwargs ->
  BaseModel.set_attributes self kwargs st
  = (Ok (with_attributes self kwargs), st).
Proof.
  induction kwargs as [|[key v] rest IH]; intros self st Hord; [done|].
  apply Forall_cons in Hord as [Hkey Hrest]. cbn [BaseModel.set_attributes].
  erewrite bind_ok by (by apply setattr_ordinary). by apply IH.
Qed.

Lemma init_ordinary `{Env} self top kwargs st :
  ordinary_keys kwargs ->
  BaseModel.__init__ self top kwargs st
  = (Ok (with_attributes (<["top_probs" := top]> self) kwargs), st).
Proof.
  intros Hord. unfold BaseModel.__init__.
  erewrite bind_ok by (by apply setattr_ordinary).
  destruct kwargs; [done|]. by apply set_attributes_ordinary.
Qed.

Lemma ordinary_keys_no_self kwargs :
  ordinary_keys kwargs ->
  existsb (fun kv => String.eqb (fst kv) "self") kwargs = false.
Proof.
  induction 1 as [|kv rest Hkv _ IH]; [done|]. cbn [existsb].
  unfold special_name in Hkv. apply orb_false_elim in Hkv as [-> _]. exact IH.
Qed.

Lemma new_ordinary `{Env} top kwargs st :
  ordinary_keys kwargs -> assoc_get "top_probs" kwargs = None ->
  BaseModel.new top kwargs st
  = (Ok (with_attributes {[ "top_probs" := default (VInt 5) top ]} kwargs), st).
Proof.
  intros Hord Htop. unfold BaseModel.new.
  rewrite (ordinary_keys_no_self _ Hord), Htop.
  rewrite init_ordinary by done. by rewrite insert_empty.
Qed.

Lemma assoc_get_None key kwargs :
  assoc_get key kwargs = None <-> key ∉ map fst kwargs.
Proof.
  induction kwargs as [|[k v] rest IH]; cbn [assoc_get map fst].
  - split; [intros _; apply not_elem_of_nil | done].
  - destruct (String.eqb_spec key k) as [->|Hne].
    + split; [done|]. intros Hnot. destruct Hnot. by left.
    + rewrite IH, not_elem_of_cons. tauto.
Qed.

Lemma with_attributes_absent kwargs : forall self key,
  key ∉ map fst kwargs -> with_attributes self kwargs !! key = self !! key.
Proof.
  induction kwargs as [|[k v] rest IH]; intros self key Hkey; [done|].
  cbn [map fst] in Hkey. apply not_elem_of_cons in Hkey as [Hne Hkey].
  unfold with_attributes in *. cbn [foldl fst snd].
  rewrite IH by done. by apply lookup_insert_ne.
Qed.

Lemma with_attributes_present kwargs : forall self key v,
  mapping kwargs -> (key, v) ∈ kwargs ->
  with_attributes self kwargs !! key = Some v.
Proof.
  unfold mapping.
  induction kwargs as [|[k w] rest IH]; intros self key v Hnd Hin.
  - by apply elem_of_nil in Hin.
  - cbn [map fst] in Hnd. apply NoDup_cons in Hnd as [Hk Hnd].
    unfold with_attributes in *. cbn [foldl fst snd].
    apply elem_of_cons in Hin as [[= -> ->]|Hin].
    + fold (with_attributes (<[k := w]> self) rest).
      rewrite with_attributes_absent by done. apply lookup_insert_eq.
    + by apply IH.
Qed.

(** ** The delegating methods *)

Section Delegates.
Context `{Env}.

Lemma preprocess_no_delegate self v st :
  no_delegate self "preprocessor" "preprocessor_name" ->
  BaseModel.preprocess self v st
  = (Ok v, warned st "Evaluating without preprocessor").
Proof.
  intros Hno. unfold BaseModel.preprocess.
  erewrite try_caught; [reflexivity|]. by apply missing_delegate_raises.
Qed.

Lemma postprocess_no_delegate self v st :
  no_delegate self "postprocessor" "postprocessor_name" ->
  BaseModel.postprocess self v st
  = (Ok v, warned st "Evaluating without postprocessor").
Proof.
  intros Hno. unfold BaseModel.postprocess.
  erewrite try_caught; [reflexivity|]. by apply missing_delegate_raises.
Qed.

Lemma decode_prob_no_delegate self v st :
  no_delegate self "prob_decoder" "prob_decoder_name" ->
  BaseModel.decode_prob self v st
  = BaseModel.default_decode self v (warned st "Evaluating without class decoder").
Proof.
  intros Hno. unfold BaseModel.decode_prob.
  erewrite try_caught; [reflexivity|]. by apply missing_delegate_raises.
Qed.

(** Without a decoder, on an array of floats. *)
Lemma decode_prob_floats self k st arr rows :
  no_delegate self "prob_decoder" "prob_decoder_name" ->
  self !! "top_probs" = Some (VInt k) ->
  float_array (heap st) arr rows ->
  exists ext,
    BaseModel.decode_prob self arr st
    = (Ok (VRef (length (heap st))),
       State (heap st ++ ext)
             (warnings st ++ ["Evaluating without class decoder"])) /\
    results_at (length (heap st)) (heap st ++ ext) (map (row_result k) rows).
Proof.
  intros Hno Htop Harr. rewrite decode_prob_no_delegate by done.
  by apply (default_decode_floats self k (warned st _) arr rows).
Qed.

End Delegates.

(** ** What a decoded row looks like *)

Lemma retained_source k fs p : p ∈ retained k fs -> fs !! fst p = Some (snd p).
Proof. intros Hp%retained_elem. by apply enum_elem. Qed.

Lemma row_result_decodes k fs : 0 < k -> decodes_row k fs (row_result k fs).
Proof.
  intros Hk. unfold decodes_row, row_result. split.
  - rewrite length_map. by apply retained_length.
  - apply Forall_fmap, Forall_forall. intros p Hp.
    exists (fst p), (snd p). split; [by apply (retained_source k)|done].
Qed.

Lemma row_result_descending k fs :
  Forall not_nan fs -> descending_stable fs (row_result k fs).
Proof.
  intros Hnan a b da db Hab Ha Hb. unfold row_result in Ha, Hb.
  rewrite list_lookup_fmap in Ha, Hb.
  destruct (retained k fs !! a) as [p|] eqn:Hp; [|done].
  destruct (retained k fs !! b) as [q|] eqn:Hq; [|done].
  simplify_eq/=. destruct p as [i f], q as [j g]. exists i, j, f, g.
  split; [done|]. split; [done|].
  split; [by eapply (retained_source k fs (i, f)), list_elem_of_lookup_2|].
  split; [by eapply (retained_source k fs (j, g)), list_elem_of_lookup_2|].
  by eapply (retained_sorted k fs a b).
Qed.

Lemma row_result_finite_three_decimals k fs :
  finite_probs_three_decimals fs (row_result k fs).
Proof.
  unfold finite_probs_three_decimals, row_result.
  apply Forall_fmap, Forall_forall. intros p Hp.
  exists (fst p), (snd p), (format_3f_float (snd p)).
  split; [done|]. split; [by apply (retained_source k)|]. split; [done|].
  apply format_three_decimals.
Qed.

Lemma string_length_app (s t : string) :
  String.length (s +:+ t) = (String.length s + String.length t)%nat.
Proof. induction s; simpl; [done|]. congruence. Qed.

Lemma read_list_mono h ext v items :
  read_list h v = Some items -> read_list (h ++ ext) v = Some items.
Proof.
  destruct v as [| | | |l|]; try done. unfold read_list.
  destruct (h !! l) as [o|] eqn:Hl; [|done].
  by rewrite (lookup_app_l_Some _ _ _ _ Hl).
Qed.

Lemma float_array_mono h ext arr rows :
  float_array h arr rows -> float_array (h ++ ext) arr rows.
Proof.
  unfold float_array, read_array.
  destruct (read_list h arr) as [rvs|] eqn:Hlist; [|done].
  rewrite (read_list_mono _ _ _ _ Hlist). simpl.
  rewrite !mapM_Some. intros Hrows.
  eapply Forall2_impl; [exact Hrows|]. intros rv row. apply read_list_mono.
Qed.

(** * The claims *)




(** C2: with [top_probs = k] positive and no decoder configured,
    [decode_prob] on an array of probabilities returns one list per row,
    in the order of the rows, and the list of a row has
    [min(k, num_classes)] entries, each made from a class of that row. *)
Theorem C2_decode_prob_row_lengths `{Env} (self : instance) (k : Z)
    (st : state) (output_arr : value) (rows : list (list spec_float))
    (Hk : 0 < k)
    (Htop : self !! "top_probs" = Some (VInt k))
    (Hno : no_delegate self "prob_decoder" "prob_decoder_name")
    (Harr : float_array (heap st) output_arr rows) :
  exists v st' dss,
    BaseModel.decode_prob self output_arr st = (Ok v, st') /\
    read_results (heap st') v = Some dss /\
    length dss = length rows /\
    Forall2 (decodes_row k) rows dss.
Proof.
  destruct (decode_prob_floats self k st output_arr rows Hno Htop Harr)
    as (ext & Hrun & Hres).
  eexists _, _, _. split; [exact Hrun|].
  split; [exact (results_at_read _ _ _ Hres)|].
  split; [by rewrite length_map|].
  apply Forall2_fmap_r, Forall_Forall2_diag, Forall_forall.
  intros fs _. by apply row_result_decodes.
Qed.

Lemma C2_row_lengths_witness :
  exists v st' dss,
    @BaseModel.decode_prob bare_env (plain_model 2) (VRef 1%nat) st_example
      = (Ok v, st') /\
    read_results (heap st') v = Some dss /\
    length dss = 1%nat /\
    Forall2 (decodes_row 2) [[f0_1; f0_7; f0_2]] dss.
Proof.
  apply (@C2_decode_prob_row_lengths bare_env (plain_model 2) 2 st_example
           (VRef 1%nat) [[f0_1; f0_7; f0_2]]).
  - reflexivity.
  - reflexivity.
  - left. reflexivity.
  - reflexivity.
Defined.

(** C3 (as stated): on the row [[1.0, nan, 2.0]] with [top_probs = 3] the
    decoded entries come out in the order 1.0, nan, 2.0, which is not
    descending: no [<] involving NaN holds, so the sort sees nothing to
    move. *)
Lemma C3_nan_row_not_descending :
  exists v st' ds,
    @BaseModel.decode_prob bare_env (plain_model 3) (VRef 1%nat) st_nan
      = (Ok v, st') /\
    read_results (heap st') v = Some [ds] /\
    ~ descending_stable [f1_0; S754_nan; f2_0] ds.
Proof.
  eexists _, _, _. split; [vm_compute; reflexivity|].
  split; [vm_compute; reflexivity|].
  intros Hdesc.
  destruct (Hdesc 0%nat 2%nat _ _ ltac:(lia) eq_refl eq_refl)
    as (i & j & f & g & Hi & Hj & Hf & Hg & Hbefore).
  cbn in Hi, Hj. injection Hi as Hi. injection Hj as Hj.
  assert (i = 0%nat) as -> by lia. assert (j = 2%nat) as -> by lia.
  cbn in Hf, Hg. simplify_eq.
  destruct Hbefore as [Hgt | [Heq _]]; vm_compute in *; discriminate.
Qed.

(** C3 (amended): for every input row of floats that contains no NaN,
    whatever the other rows of the array hold, the entries of the decoded
    row are in descending order of probability, and entries of equal
    probability keep the order of their class indices. *)
Theorem C3_decode_prob_descending_stable `{Env} (self : instance) (k : Z)
    (st : state) (output_arr : value) (rows : list (list spec_float))
    (Htop : self !! "top_probs" = Some (VInt k))
    (Hno : no_delegate self "prob_decoder" "prob_decoder_name")
    (Harr : float_array (heap st) output_arr rows) :
  exists v st' dss,
    BaseModel.decode_prob self output_arr st = (Ok v, st') /\
    read_results (heap st') v = Some dss /\
    Forall2 (fun fs ds => Forall not_nan fs -> descending_stable fs ds)
      rows dss.
Proof.
  destruct (decode_prob_floats self k st output_arr rows Hno Htop Harr)
    as (ext & Hrun & Hres).
  eexists _, _, _. split; [exact Hrun|].
  split; [exact (results_at_read _ _ _ Hres)|].
  apply Forall2_fmap_r, Forall_Forall2_diag, Forall_forall.
  intros fs _. exact (row_result_descending k fs).
Qed.

(** At [[1.0, nan, 2.0], [0.2, 0.7, 0.2]] with [top_probs = 3]: the second
    row has no NaN, and its two classes of probability 0.2 come out in the
    order 0, 2 after class 1. *)
Lemma C3_descending_witness :
  (exists v st' dss,
     @BaseModel.decode_prob bare_env (plain_model 3) (VRef 2%nat) st_mixed
       = (Ok v, st') /\
     read_results (heap st') v = Some dss /\
     Forall2 (fun fs ds => Forall not_nan fs -> descending_stable fs ds)
       [[f1_0; S754_nan; f2_0]; [f0_2; f0_7; f0_2]] dss) /\
  (exists v st' ds0,
     @BaseModel.decode_prob bare_env (plain_model 3) (VRef 2%nat) st_mixed
       = (Ok v, st') /\
     read_results (heap st') v
     = Some [ds0;
             [ [("index", VInt 1); ("name", VStr "1"); ("prob", VStr "0.700")];
               [("index", VInt 0); ("name", VStr "0"); ("prob", VStr "0.200")];
               [("index", VInt 2); ("name", VStr "2"); ("prob", VStr "0.200")] ]]).
Proof.
  split.
  - apply (@C3_decode_prob_descending_stable bare_env (plain_model 3) 3
             st_mixed (VRef 2%nat) [[f1_0; S754_nan; f2_0]; [f0_2; f0_7; f0_2]]).
    + reflexivity.
    + left. reflexivity.
    + reflexivity.
  - eexists _, _, _. split; vm_compute; reflexivity.
Defined.

(** C4 (as stated): on the row [[1.0, nan, 2.0]] the entry for class 1 gets
    the [prob] string [nan], which has no decimal point. *)
Lemma C4_nan_prob_not_three_decimals :
  exists v st' ds,
    @BaseModel.decode_prob bare_env (plain_model 3) (VRef 1%nat) st_nan
      = (Ok v, st') /\
    read_results (heap st') v = Some [ds] /\
    ~ probs_three_decimals [f1_0; S754_nan; f2_0] ds.
Proof.
  eexists _, _, _. split; [vm_compute; reflexivity|].
  split; [vm_compute; reflexivity|].
  intros Hall. apply Forall_cons in Hall as [_ Hall].
  apply Forall_cons in Hall as [(i & f & s & Hi & Hf & Hs & H3) _].
  cbn in Hi, Hs. injection Hi as Hi. assert (i = 1%nat) as -> by lia.
  cbn in Hf. simplify_eq.
  destruct H3 as (ip & d1 & d2 & d3 & _ & _ & _ & _ & Hstr & _).
  apply (f_equal String.length) in Hstr.
  rewrite !string_length_app in Hstr. cbn in Hstr. lia.
Qed.

(** C4 (amended): for every entry retained by the default decoding whose
    source probability is a finite float, whatever the other classes and
    rows hold, the [prob] field of the returned entry is a string with
    exactly three digits after the decimal point, and the number it writes
    is the probability of the entry's class rounded to the nearest
    thousandth. *)
Theorem C4_decode_prob_three_decimals `{Env} (self : instance) (k : Z)
    (st : state) (output_arr : value) (rows : list (list spec_float))
    (Htop : self !! "top_probs" = Some (VInt k))
    (Hno : no_delegate self "prob_decoder" "prob_decoder_name")
    (Harr : float_array (heap st) output_arr rows) :
  exists v st' dss,
    BaseModel.decode_prob self output_arr st = (Ok v, st') /\
    read_results (heap st') v = Some dss /\
    Forall2 finite_probs_three_decimals rows dss.
Proof.
  destruct (decode_prob_floats self k st output_arr rows Hno Htop Harr)
    as (ext & Hrun & Hres).
  eexists _, _, _. split; [exact Hrun|].
  split; [exact (results_at_read _ _ _ Hres)|].
  apply Forall2_fmap_r, Forall_Forall2_diag, Forall_forall.
  intros fs _. apply row_result_finite_three_decimals.
Qed.

Lemma C4_three_decimals_witness :
  exists v st' dss,
    @BaseModel.decode_prob bare_env (plain_model 3) (VRef 2%nat) st_mixed
      = (Ok v, st') /\
    read_results (heap st') v = Some dss /\
    Forall2 finite_probs_three_decimals
      [[f1_0; S754_nan; f2_0]; [f0_2; f0_7; f0_2]] dss.
Proof.
  apply (@C4_decode_prob_three_decimals bare_env (plain_model 3) 3
           st_mixed (VRef 2%nat) [[f1_0; S754_nan; f2_0]; [f0_2; f0_7; f0_2]]).
  - reflexivity.
  - left. reflexivity.
  - reflexivity.
Defined.

(** C5: [BaseModel(top_probs=2).decode_prob([[0.1, 0.7, 0.2]])], with no
    decoder configured, returns
    [[{'index': 1, 'name': '1', 'prob': '0.700'},
      {'index': 2, 'name': '2', 'prob': '0.200'}]]. *)
Theorem C5_decode_prob_example `{Env} :
  exists self v st',
    BaseModel.new (Some (VInt 2)) ∅ (State [] []) = (Ok self, State [] []) /\
    BaseModel.decode_prob self (VRef 1%nat) st_example = (Ok v, st') /\
    read_array (heap st_example) (VRef 1%nat)
      = Some [[VFloat f0_1; VFloat f0_7; VFloat f0_2]] /\
    read_results (heap st') v
      = Some [[ [("index", VInt 1); ("name", VStr "1"); ("prob", VStr "0.700")];
                [("index", VInt 2); ("name", VStr "2"); ("prob", VStr "0.200")] ]].
Proof.
  eexists _, _, _. split; [reflexivity|]. split; [|split].
  - vm_compute. reflexivity.
  - reflexivity.
  - vm_compute. reflexivity.
Qed.

(** C6: [predict(raw_targets)] is [_predict(preprocess(raw_targets))]: the
    result and effects of [preprocess] followed by those of [_predict], for
    any class, in particular for a subclass that implements [_predict] and
    inherits the rest; and it does not depend on what [load], [postprocess]
    or [decode_prob] of the class do. *)
Theorem C6_predict_composes `{Env} (cls : methods)
    (_predict' : instance -> value -> py value)
    (load' : instance -> value -> gmap string value -> py value)
    (postprocess' decode_prob' : instance -> value -> py value)
    (self : instance) (raw_targets : value) (st : state) :
  BaseModel.predict cls self raw_targets st
    = match m_preprocess cls self raw_targets st with
      | (Ok targets, st1) => m__predict cls self targets st1
      | (Raise e, st1) => (Raise e, st1)
      end /\
  BaseModel.predict (BaseModel.subclass _predict') self raw_targets st
    = match BaseModel.preprocess self raw_targets st with
      | (Ok targets, st1) => _predict' self targets st1
      | (Raise e, st1) => (Raise e, st1)
      end /\
  BaseModel.predict (override_others cls load' postprocess' decode_prob')
      self raw_targets st
    = BaseModel.predict cls self raw_targets st.
Proof.
  split; [|split].
  - unfold BaseModel.predict, bind.
    by destruct (m_preprocess cls self raw_targets st) as [[]].
  - unfold BaseModel.predict, bind. cbn [m_preprocess m__predict BaseModel.subclass].
    by destruct (BaseModel.preprocess self raw_targets st) as [[]].
  - reflexivity.
Qed.

(** C7 (as stated): not every keyword is accepted.  [__class__=3] makes
    the constructor raise [TypeError], since [__class__] must be set to a
    class; so do a keyword [self], which collides with the first parameter,
    and [__dict__] with anything but a dictionary, and [__weakref__] raises
    [AttributeError]. *)
Lemma C7_special_keyword_raises :
  ~ (forall (E : Env) (kwargs : list (string * value)) (st : state),
       mapping kwargs -> assoc_get "top_probs" kwargs = None ->
       exists self, BaseModel.new None kwargs st = (Ok self, st)).
Proof.
  intros Hclaim.
  destruct (Hclaim bare_env [("__class__", VInt 3)] (State [] []))
    as [self Hrun].
  - apply NoDup_singleton.
  - reflexivity.
  - vm_compute in Hrun. discriminate Hrun.
Qed.

(** C7 (amended): for every mapping of extra keyword arguments with none of
    the keys [self], [__class__], [__dict__] and [__weakref__], the
    constructor raises nothing, makes each key-value pair readable as an
    attribute of the instance, and sets [top_probs] to 5 when it is not
    supplied. *)
Theorem C7_constructor_attributes `{Env} (top_probs : option value)
    (kwargs : list (string * value)) (st : state)
    (Hmap : mapping kwargs)
    (Hord : ordinary_keys kwargs)
    (Hbound : assoc_get "top_probs" kwargs = None) :
  exists self,
    BaseModel.new top_probs kwargs st = (Ok self, st) /\
    (forall key v, (key, v) ∈ kwargs -> self_attr self key st = (Ok v, st)) /\
    self_attr self "top_probs" st
      = (Ok match top_probs with Some k => k | None => VInt 5 end, st).
Proof.
  eexists. split; [by apply new_ordinary|]. split.
  - intros key v Hkv. apply self_attr_Some.
    + by apply with_attributes_present.
    + unfold ordinary_keys in Hord. rewrite Forall_forall in Hord.
      specialize (Hord _ Hkv). unfold special_name in Hord.
      by apply orb_false_elim in Hord as [_ ?].
  - apply self_attr_Some; [|done].
    rewrite with_attributes_absent by (by apply assoc_get_None).
    rewrite lookup_singleton_eq. by destruct top_probs.
Qed.

Lemma C7_constructor_witness :
  exists self,
    @BaseModel.new bare_env None [("depth", VInt 3); ("predict", VStr "off")]
      (State [] [])
      = (Ok self, State [] []) /\
    @self_attr bare_env self "depth" (State [] [])
      = (Ok (VInt 3), State [] []) /\
    @self_attr bare_env self "predict" (State [] [])
      = (Ok (VStr "off"), State [] []) /\
    @self_attr bare_env self "top_probs" (State [] [])
      = (Ok (VInt 5), State [] []).
Proof.
  destruct (@C7_constructor_attributes bare_env None
              [("depth", VInt 3); ("predict", VStr "off")] (State [] []))
    as (self & Hnew & Hkw & Htop).
  - unfold mapping. cbn. apply NoDup_cons. split; [|apply NoDup_singleton].
    intros Hin%list_elem_of_singleton. discriminate Hin.
  - repeat constructor.
  - reflexivity.
  - exists self. split; [exact Hnew|].
    split; [apply Hkw; left|]. split; [apply Hkw; right; left | exact Htop].
Defined.

(** C8: once the class has been loaded and the instance constructed,
    [generate_model] returns that instance whether or not it is an instance
    of [BaseModel]; when it is not, the only addition is a warning whose
    text carries the class name and the path. *)
Theorem C8_generate_model_returns_instance `{Env}
    (model_cls_path model_cls_name : string) (kwargs : gmap string value)
    (st st1 st2 st3 : state) (model_module model_cls model : value)
    (Hload : import_from_file model_cls_path st = (Ok model_module, st1))
    (Hcls : obj_getattr model_module model_cls_name st1 = (Ok model_cls, st2))
    (Hnew : obj_call model_cls [] kwargs st2 = (Ok model, st3)) :
  generate_model model_cls_path model_cls_name kwargs st
  = (Ok model,
     if isinstance_BaseModel model then st3
     else warned st3
            ("Loaded model '" +:+ model_cls_name +:+ "' at '" +:+
             model_cls_path +:+ "' is not an instance of " +:+ BaseModel_repr)).
Proof.
  unfold generate_model.
  erewrite bind_ok by exact Hload.
  erewrite bind_ok by exact Hcls.
  erewrite bind_ok by exact Hnew.
  by destruct (isinstance_BaseModel model).
Qed.

Lemma C8_generate_model_witness :
  @generate_model plugin_env "models/net.py" "Net" ∅ (State [] [])
  = (Ok (VForeign 3),
     State [] ["Loaded model 'Net' at 'models/net.py' is not an instance of <class 'picasso.ml_frameworks.model.BaseModel'>"]).
Proof.
  apply (@C8_generate_model_returns_instance plugin_env "models/net.py" "Net" ∅
           (State [] []) (State [] []) (State [] []) (State [] [])
           (VForeign 1) (VForeign 2) (VForeign 3));
    reflexivity.
Defined.

(** C9: a configured delegate that resolves and then fails with
    [AttributeError] while it runs is treated like a missing one: the error
    does not reach the caller, the same warning is logged after whatever
    the delegate did, and the fallback is returned: the input for
    [preprocess] and [postprocess], the default decoding for
    [decode_prob]. *)
Theorem C9_delegate_AttributeError_is_swallowed `{Env} (self : instance)
    (v : value) (st : state) :
  (forall p name f s1 s2,
     self !! "preprocessor" = Some p ->
     self !! "preprocessor_name" = Some (VStr name) ->
     obj_getattr p name st = (Ok f, s1) ->
     obj_call f [v] ∅ s1 = (Raise AttributeError, s2) ->
     BaseModel.preprocess self v st
       = (Ok v, warned s2 "Evaluating without preprocessor")) /\
  (forall p name f s1 s2,
     self !! "postprocessor" = Some p ->
     self !! "postprocessor_name" = Some (VStr name) ->
     obj_getattr p name st = (Ok f, s1) ->
     obj_call f [v] ∅ s1 = (Raise AttributeError, s2) ->
     BaseModel.postprocess self v st
       = (Ok v, warned s2 "Evaluating without postprocessor")) /\
  (forall d name f top s1 s2,
     self !! "prob_decoder" = Some d ->
     self !! "prob_decoder_name" = Some (VStr name) ->
     obj_getattr d name st = (Ok f, s1) ->
     self !! "top_probs" = Some top ->
     obj_call f [v] {[ "top" := top ]} s1 = (Raise AttributeError, s2) ->
     BaseModel.decode_prob self v st
       = BaseModel.default_decode self v
           (warned s2 "Evaluating without class decoder")).
Proof.
  split; [|split].
  - intros p name f s1 s2 Hp Hn Hf Hc.
    unfold BaseModel.preprocess. erewrite try_caught; [reflexivity|].
    run_with self_attr_Some. run_with self_attr_Some.
    erewrite bind_ok by exact Hf. exact Hc.
  - intros p name f s1 s2 Hp Hn Hf Hc.
    unfold BaseModel.postprocess. erewrite try_caught; [reflexivity|].
    run_with self_attr_Some. run_with self_attr_Some.
    erewrite bind_ok by exact Hf. exact Hc.
  - intros d name f top s1 s2 Hd Hn Hf Htop Hc.
    unfold BaseModel.decode_prob. erewrite try_caught; [reflexivity|].
    run_with self_attr_Some. run_with self_attr_Some.
    erewrite bind_ok by exact Hf. run_with self_attr_Some. exact Hc.
Qed.

Lemma C9_delegate_witness :
  @BaseModel.preprocess broken_delegate_env model_with_delegates (VRef 1%nat)
      st_example
    = (Ok (VRef 1%nat), warned st_example "Evaluating without preprocessor") /\
  @BaseModel.postprocess broken_delegate_env model_with_delegates (VRef 1%nat)
      st_example
    = (Ok (VRef 1%nat), warned st_example "Evaluating without postprocessor") /\
  @BaseModel.decode_prob broken_delegate_env model_with_delegates (VRef 1%nat)
      st_example
    = @BaseModel.default_decode broken_delegate_env model_with_delegates
        (VRef 1%nat) (warned st_example "Evaluating without class decoder").
Proof.
  destruct (@C9_delegate_AttributeError_is_swallowed broken_delegate_env
              model_with_delegates (VRef 1%nat) st_example)
    as (Hpre & Hpost & Hdec).
  split; [|split].
  - apply (Hpre (VForeign 1) "run" (VForeign 7) st_example st_example);
      reflexivity.
  - apply (Hpost (VForeign 1) "run" (VForeign 7) st_example st_example);
      reflexivity.
  - apply (Hdec (VForeign 1) "run" (VForeign 7) (VInt 5) st_example st_example);
      reflexivity.
Defined.

(** C10: the default decoding algorithm leaves its input alone.  On an
    array of floats every object of the store before the call is the same
    after it, so the array still reads as the same rows; the result, the
    list of each row and every entry in it are objects allocated during
    the call, and only such objects were written to. *)
Theorem C10_default_decode_keeps_input `{Env} (self : instance) (k : Z)
    (st : state) (output_arr : value) (rows : list (list spec_float))
    (Htop : self !! "top_probs" = Some (VInt k))
    (Harr : float_array (heap st) output_arr rows) :
  exists ext rs,
    let st' := State (heap st ++ ext) (warnings st) in
    BaseModel.default_decode self output_arr st
      = (Ok (VRef (length (heap st))), st') /\
    (forall l o, heap st !! l = Some o -> heap st' !! l = Some o) /\
    float_array (heap st') output_arr rows /\
    read_list (heap st') (VRef (length (heap st))) = Some rs /\
    Forall (fun rv => exists l es,
              rv = VRef l /\ (length (heap st) < l)%nat /\
              read_list (heap st') rv = Some (map VRef es) /\
              Forall (fun e => (length (heap st) < e)%nat /\
                               is_Some (read_dict (heap st') (VRef e))) es) rs.
Proof.
  destruct (default_decode_floats self k st output_arr rows Htop Harr)
    as (ext & Hrun & rs & Hrs & Hall).
  exists ext, rs. cbn zeta. cbn [heap].
  split; [exact Hrun|].
  split; [intros l o; apply lookup_app_l_Some|].
  split; [by apply float_array_mono|].
  split; [unfold read_list; by rewrite Hrs|].
  eapply Forall2_Forall_l; [exact Hall|].
  apply Forall_true. intros ds rv (l & es & -> & Hl & Hlist & Hes).
  exists l, es. split; [done|]. split; [done|].
  split; [unfold read_list; by rewrite Hlist|].
  eapply Forall2_Forall_l; [exact Hes|].
  apply Forall_true. intros d e [He Hd]. split; [done|].
  unfold read_dict. rewrite Hd. by eexists.
Qed.

Lemma C10_keeps_input_witness :
  exists ext rs,
    let st' := State (heap st_example ++ ext) (warnings st_example) in
    @BaseModel.default_decode bare_env (plain_model 2) (VRef 1%nat) st_example
      = (Ok (VRef 2%nat), st') /\
    (forall l o, heap st_example !! l = Some o -> heap st' !! l = Some o) /\
    float_array (heap st') (VRef 1%nat) [[f0_1; f0_7; f0_2]] /\
    read_list (heap st') (VRef 2%nat) = Some rs /\
    Forall (fun rv => exists l es,
              rv = VRef l /\ (2 < l)%nat /\
              read_list (heap st') rv = Some (map VRef es) /\
              Forall (fun e => (2 < e)%nat /\
                               is_Some (read_dict (heap st') (VRef e))) es) rs.
Proof.
  apply (@C10_default_decode_keeps_input bare_env (plain_model 2) 2
           st_example (VRef 1%nat) [[f0_1; f0_7; f0_2]]).
  - reflexivity.
  - reflexivity.
Defined.

(** * Further properties of the module *)

(** ** Delegates that are present *)

Lemma try_passes {A} (body handler : py A) st r st' :
  body st = (r, st') -> r <> Raise AttributeError ->
  try_except_AttributeError body handler st = (r, st').
Proof.
  unfold try_except_AttributeError. intros -> Hr.
  destruct r as [a|[]]; try reflexivity. by destruct Hr.
Qed.

(** X1: when the configured delegate resolves and returns, each of the
    three methods returns what the delegate returned and leaves the state
    as the delegate left it: no warning, no fallback.  [decode_prob] hands
    the delegate the array and [top=self.top_probs]. *)
Theorem delegate_result_is_returned `{Env} (self : instance) (v : value)
    (st : state) :
  (forall p name f s1 r s2,
     self !! "preprocessor" = Some p ->
     self !! "preprocessor_name" = Some (VStr name) ->
     obj_getattr p name st = (Ok f, s1) ->
     obj_call f [v] ∅ s1 = (Ok r, s2) ->
     BaseModel.preprocess self v st = (Ok r, s2)) /\
  (forall p name f s1 r s2,
     self !! "postprocessor" = Some p ->
     self !! "postprocessor_name" = Some (VStr name) ->
     obj_getattr p name st = (Ok f, s1) ->
     obj_call f [v] ∅ s1 = (Ok r, s2) ->
     BaseModel.postprocess self v st = (Ok r, s2)) /\
  (forall d name f top s1 r s2,
     self !! "prob_decoder" = Some d ->
     self !! "prob_decoder_name" = Some (VStr name) ->
     obj_getattr d name st = (Ok f, s1) ->
     self !! "top_probs" = Some top ->
     obj_call f [v] {[ "top" := top ]} s1 = (Ok r, s2) ->
     BaseModel.decode_prob self v st = (Ok r, s2)).
Proof.
  split; [|split].
  - intros p name f s1 r s2 Hp Hn Hf Hc.
    unfold BaseModel.preprocess. apply try_passes; [|done].
    run_with self_attr_Some. run_with self_attr_Some.
    erewrite bind_ok by exact Hf. exact Hc.
  - intros p name f s1 r s2 Hp Hn Hf Hc.
    unfold BaseModel.postprocess. apply try_passes; [|done].
    run_with self_attr_Some. run_with self_attr_Some.
    erewrite bind_ok by exact Hf. exact Hc.
  - intros d name f top s1 r s2 Hd Hn Hf Htop Hc.
    unfold BaseModel.decode_prob. apply try_passes; [|done].
    run_with self_attr_Some. run_with self_attr_Some.
    erewrite bind_ok by exact Hf. run_with self_attr_Some. exact Hc.
Qed.

Lemma delegate_result_witness :
  @BaseModel.preprocess plugin_env model_with_delegates (VRef 1%nat) st_example
    = (Ok (VForeign 3), st_example) /\
  @BaseModel.postprocess plugin_env model_with_delegates (VRef 1%nat) st_example
    = (Ok (VForeign 3), st_example) /\
  @BaseModel.decode_prob plugin_env model_with_delegates (VRef 1%nat) st_example
    = (Ok (VForeign 3), st_example).
Proof.
  destruct (@delegate_result_is_returned plugin_env model_with_delegates
              (VRef 1%nat) st_example) as (Hpre & Hpost & Hdec).
  split; [|split].
  - apply (Hpre (VForeign 1) "run" (VForeign 2) st_example); reflexivity.
  - apply (Hpost (VForeign 1) "run" (VForeign 2) st_example); reflexivity.
  - apply (Hdec (VForeign 1) "run" (VForeign 2) (VInt 5) st_example);
      reflexivity.
Defined.

(** X2: an exception other than [AttributeError], raised while the
    delegate is looked up or while it runs, leaves each of the three
    methods as it is: same exception, state as it was when raised, no
    warning and no fallback. *)
Theorem delegate_error_propagates `{Env} (self : instance) (v : value)
    (st : state) (e : exn) (He : e <> AttributeError) :
  (forall p name s2,
     self !! "preprocessor" = Some p ->
     self !! "preprocessor_name" = Some (VStr name) ->
     obj_getattr p name st = (Raise e, s2) \/
     (exists f s1, obj_getattr p name st = (Ok f, s1) /\
                   obj_call f [v] ∅ s1 = (Raise e, s2)) ->
     BaseModel.preprocess self v st = (Raise e, s2)) /\
  (forall p name s2,
     self !! "postprocessor" = Some p ->
     self !! "postprocessor_name" = Some (VStr name) ->
     obj_getattr p name st = (Raise e, s2) \/
     (exists f s1, obj_getattr p name st = (Ok f, s1) /\
                   obj_call f [v] ∅ s1 = (Raise e, s2)) ->
     BaseModel.postprocess self v st = (Raise e, s2)) /\
  (forall d name top s2,
     self !! "prob_decoder" = Some d ->
     self !! "prob_decoder_name" = Some (VStr name) ->
     self !! "top_probs" = Some top ->
     obj_getattr d name st = (Raise e, s2) \/
     (exists f s1, obj_getattr d name st = (Ok f, s1) /\
                   obj_call f [v] {[ "top" := top ]} s1 = (Raise e, s2)) ->
     BaseModel.decode_prob self v st = (Raise e, s2)).
Proof.
  assert (Hne : @Raise value e <> Raise AttributeError) by congruence.
  split; [|split].
  - intros p name s2 Hp Hn Hfail.
    unfold BaseModel.preprocess. apply try_passes; [|done].
    run_with self_attr_Some. run_with self_attr_Some.
    destruct Hfail as [Hf | (f & s1 & Hf & Hc)].
    + by apply bind_raise.
    + erewrite bind_ok by exact Hf. exact Hc.
  - intros p name s2 Hp Hn Hfail.
    unfold BaseModel.postprocess. apply try_passes; [|done].
    run_with self_attr_Some. run_with self_attr_Some.
    destruct Hfail as [Hf | (f & s1 & Hf & Hc)].
    + by apply bind_raise.
    + erewrite bind_ok by exact Hf. exact Hc.
  - intros d name top s2 Hd Hn Htop Hfail.
    unfold BaseModel.decode_prob. apply try_passes; [|done].
    run_with self_attr_Some. run_with self_attr_Some.
    destruct Hfail as [Hf | (f & s1 & Hf & Hc)].
    + by apply bind_raise.
    + erewrite bind_ok by exact Hf. run_with self_attr_Some. exact Hc.
Qed.

Lemma delegate_error_witness :
  @BaseModel.preprocess failing_call_env model_with_delegates (VRef 1%nat)
      st_example = (Raise ValueError, st_example) /\
  @BaseModel.postprocess failing_call_env model_with_delegates (VRef 1%nat)
      st_example = (Raise ValueError, st_example) /\
  @BaseModel.decode_prob failing_call_env model_with_delegates (VRef 1%nat)
      st_example = (Raise ValueError, st_example).
Proof.
  destruct (@delegate_error_propagates failing_call_env model_with_delegates
              (VRef 1%nat) st_example ValueError) as (Hpre & Hpost & Hdec).
  - discriminate.
  - split; [|split].
    + apply (Hpre (VForeign 1) "run"); [reflexivity|reflexivity|].
      right. exists (VForeign 7), st_example. split; reflexivity.
    + apply (Hpost (VForeign 1) "run"); [reflexivity|reflexivity|].
      right. exists (VForeign 7), st_example. split; reflexivity.
    + apply (Hdec (VForeign 1) "run" (VInt 5)); [reflexivity..|].
      right. exists (VForeign 7), st_example. split; reflexivity.
Defined.

(** X3: when the delegate object is set but has no attribute of the
    configured name, the lookup's [AttributeError] is taken as "no
    delegate": the warning is logged and the fallback used, and nothing
    is called. *)
Theorem missing_delegate_attribute_falls_back `{Env} (self : instance)
    (v : value) (st : state) :
  (forall p name s1,
     self !! "preprocessor" = Some p ->
     self !! "preprocessor_name" = Some (VStr name) ->
     obj_getattr p name st = (Raise AttributeError, s1) ->
     BaseModel.preprocess self v st
       = (Ok v, warned s1 "Evaluating without preprocessor")) /\
  (forall p name s1,
     self !! "postprocessor" = Some p ->
     self !! "postprocessor_name" = Some (VStr name) ->
     obj_getattr p name st = (Raise AttributeError, s1) ->
     BaseModel.postprocess self v st
       = (Ok v, warned s1 "Evaluating without postprocessor")) /\
  (forall d name s1,
     self !! "prob_decoder" = Some d ->
     self !! "prob_decoder_name" = Some (VStr name) ->
     obj_getattr d name st = (Raise AttributeError, s1) ->
     BaseModel.decode_prob self v st
       = BaseModel.default_decode self v
           (warned s1 "Evaluating without class decoder")).
Proof.
  split; [|split].
  - intros p name s1 Hp Hn Hf.
    unfold BaseModel.preprocess. erewrite try_caught; [reflexivity|].
    run_with self_attr_Some. run_with self_attr_Some. by apply bind_raise.
  - intros p name s1 Hp Hn Hf.
    unfold BaseModel.postprocess. erewrite try_caught; [reflexivity|].
    run_with self_attr_Some. run_with self_attr_Some. by apply bind_raise.
  - intros d name s1 Hd Hn Hf.
    unfold BaseModel.decode_prob. erewrite try_caught; [reflexivity|].
    run_with self_attr_Some. run_with self_attr_Some. by apply bind_raise.
Qed.

Lemma missing_delegate_attribute_witness :
  @BaseModel.preprocess bare_env model_with_delegates (VRef 1%nat) st_example
    = (Ok (VRef 1%nat), warned st_example "Evaluating without preprocessor") /\
  @BaseModel.postprocess bare_env model_with_delegates (VRef 1%nat) st_example
    = (Ok (VRef 1%nat), warned st_example "Evaluating without postprocessor").
Proof.
  destruct (@missing_delegate_attribute_falls_back bare_env
              model_with_delegates (VRef 1%nat) st_example)
    as (Hpre & Hpost & _).
  split.
  - apply (Hpre (VForeign 1) "run"); reflexivity.
  - apply (Hpost (VForeign 1) "run"); reflexivity.
Defined.

(** X4: [preprocess] and [postprocess] never raise [AttributeError],
    whatever the instance holds and whatever the delegate does. *)
Theorem preprocess_never_raises_AttributeError `{Env} (self : instance)
    (v : value) (st : state) :
  (BaseModel.preprocess self v st).1 <> Raise AttributeError /\
  (BaseModel.postprocess self v st).1 <> Raise AttributeError.
Proof.
  split.
  - unfold BaseModel.preprocess, try_except_AttributeError.
    match goal with |- context [match ?b with _ => _ end] =>
      destruct b as [[a|[]] s] end; done.
  - unfold BaseModel.postprocess, try_except_AttributeError.
    match goal with |- context [match ?b with _ => _ end] =>
      destruct b as [[a|[]] s] end; done.
Qed.

(** ** predict *)



(** X6: for a subclass that implements [_predict], on an instance that
    carries no attribute named [preprocess] or [_predict] and has no
    preprocessor configured, [predict] hands the raw targets themselves to
    [_predict], after one warning, and returns its outcome. *)
Theorem predict_without_preprocessor `{Env}
    (_predict' : instance -> value -> py value) (self : instance)
    (raw_targets : value) (st : state)
    (Hpre : self !! "preprocess" = None)
    (Hpred : self !! "_predict" = None)
    (Hno : no_delegate self "preprocessor" "preprocessor_name") :
  BaseModel.predict (resolve (BaseModel.subclass _predict') self) self
    raw_targets st
  = _predict' self raw_targets (warned st "Evaluating without preprocessor").
Proof.
  unfold BaseModel.predict, resolve. cbn [m_preprocess m__predict].
  rewrite Hpre, Hpred. cbn [m_preprocess m__predict BaseModel.subclass].
  by erewrite bind_ok by (by apply preprocess_no_delegate).
Qed.

Lemma predict_without_preprocessor_witness :
  BaseModel.predict
     (@resolve bare_env
        (@BaseModel.subclass bare_env (fun _ targets => ret targets))
        (plain_model 2))
     (plain_model 2) (VRef 1%nat) st_example
  = (Ok (VRef 1%nat), warned st_example "Evaluating without preprocessor").
Proof.
  apply (@predict_without_preprocessor bare_env
           (fun _ targets => ret targets) (plain_model 2) (VRef 1%nat)
           st_example).
  - reflexivity.
  - reflexivity.
  - left. reflexivity.
Defined.

(** ** generate_model *)

(** X7: [generate_model] catches nothing.  If loading the file fails, or
    the module has no attribute of the given name, or the constructor
    raises, that exception is the outcome, with the state as it was when
    raised; later steps do not run and no warning is logged. *)
Theorem generate_model_propagates_errors `{Env}
    (model_cls_path model_cls_name : string) (kwargs : gmap string value)
    (st : state) (e : exn) (st' : state) :
  (import_from_file model_cls_path st = (Raise e, st') ->
   generate_model model_cls_path model_cls_name kwargs st = (Raise e, st')) /\
  (forall model_module s1,
     import_from_file model_cls_path st = (Ok model_module, s1) ->
     obj_getattr model_module model_cls_name s1 = (Raise e, st') ->
     generate_model model_cls_path model_cls_name kwargs st = (Raise e, st')) /\
  (forall model_module s1 model_cls s2,
     import_from_file model_cls_path st = (Ok model_module, s1) ->
     obj_getattr model_module model_cls_name s1 = (Ok model_cls, s2) ->
     obj_call model_cls [] kwargs s2 = (Raise e, st') ->
     generate_model model_cls_path model_cls_name kwargs st = (Raise e, st')).
Proof.
  unfold generate_model. split; [|split].
  - intros Hload. by apply bind_raise.
  - intros m s1 Hload Hcls. erewrite bind_ok by exact Hload.
    by apply bind_raise.
  - intros m s1 c s2 Hload Hcls Hnew. erewrite bind_ok by exact Hload.
    erewrite bind_ok by exact Hcls. by apply bind_raise.
Qed.

Lemma generate_model_errors_witness :
  @generate_model bare_env "models/net.py" "Net" ∅ (State [] [])
    = (Raise (OtherError "FileNotFoundError"), State [] []) /\
  @generate_model empty_module_env "models/net.py" "Net" ∅ (State [] [])
    = (Raise AttributeError, State [] []) /\
  @generate_model failing_call_env "models/net.py" "Net" ∅ (State [] [])
    = (Raise ValueError, State [] []).
Proof.
  split; [|split].
  - apply (@generate_model_propagates_errors bare_env). reflexivity.
  - apply (proj1 (proj2 (@generate_model_propagates_errors empty_module_env
             "models/net.py" "Net" ∅ (State [] []) AttributeError (State [] [])))
             (VForeign 1) (State [] [])); reflexivity.
  - apply (proj2 (proj2 (@generate_model_propagates_errors failing_call_env
             "models/net.py" "Net" ∅ (State [] []) ValueError (State [] [])))
             (VForeign 1) (State [] []) (VForeign 7) (State [] [])); reflexivity.
Defined.

(** X8: whenever [generate_model] returns, all three steps succeeded, the
    value returned is the very object the constructor returned, and the
    state differs from the one the constructor left by at most the one
    warning, logged exactly when the object is not a [BaseModel]. *)
Theorem generate_model_returns_only_constructed `{Env}
    (model_cls_path model_cls_name : string) (kwargs : gmap string value)
    (st st' : state) (model : value)
    (Hrun : generate_model model_cls_path model_cls_name kwargs st
            = (Ok model, st')) :
  exists model_module s1 model_cls s2 s3,
    import_from_file model_cls_path st = (Ok model_module, s1) /\
    obj_getattr model_module model_cls_name s1 = (Ok model_cls, s2) /\
    obj_call model_cls [] kwargs s2 = (Ok model, s3) /\
    heap st' = heap s3 /\
    warnings st'
    = warnings s3 ++
      (if isinstance_BaseModel model then []
       else ["Loaded model '" +:+ model_cls_name +:+ "' at '" +:+
             model_cls_path +:+ "' is not an instance of " +:+
             BaseModel_repr]).
Proof.
  unfold generate_model, bind in Hrun.
  destruct (import_from_file model_cls_path st) as [[m|?] s1] eqn:Hload;
    [|done].
  destruct (obj_getattr m model_cls_name s1) as [[c|?] s2] eqn:Hcls; [|done].
  destruct (obj_call c [] kwargs s2) as [[o|?] s3] eqn:Hnew; [|done].
  exists m, s1, c, s2, s3.
  destruct (isinstance_BaseModel o) eqn:Hinst; unfold ret, warn in Hrun;
    cbn in Hrun; injection Hrun as <- <-; rewrite Hinst; cbn;
    by rewrite ?app_nil_r.
Qed.

Lemma generate_model_returns_witness :
  exists model_module s1 model_cls s2 s3,
    @import_from_file plugin_env "models/net.py" (State [] [])
      = (Ok model_module, s1) /\
    @obj_getattr plugin_env model_module "Net" s1 = (Ok model_cls, s2) /\
    @obj_call plugin_env model_cls [] ∅ s2 = (Ok (VForeign 3), s3) /\
    ([] : list obj) = heap s3 /\
    ["Loaded model 'Net' at 'models/net.py' is not an instance of <class 'picasso.ml_frameworks.model.BaseModel'>"]
    = warnings s3 ++
      ["Loaded model 'Net' at 'models/net.py' is not an instance of <class 'picasso.ml_frameworks.model.BaseModel'>"].
Proof.
  apply (@generate_model_returns_only_constructed plugin_env "models/net.py"
           "Net" ∅ (State [] [])
           (State [] ["Loaded model 'Net' at 'models/net.py' is not an instance of <class 'picasso.ml_frameworks.model.BaseModel'>"])
           (VForeign 3)).
  reflexivity.
Defined.

(** ** The constructor *)

(** X9: a new instance, constructed from ordinary keyword arguments, has
    no attributes besides [top_probs] and those arguments: reading any
    other name, unless it is a method of the class or of the form [__x__],
    raises [AttributeError]. *)
Theorem constructor_sets_nothing_else `{Env} (top_probs : option value)
    (kwargs : list (string * value)) (key : string) (st : state)
    (Hord : ordinary_keys kwargs)
    (Hbound : assoc_get "top_probs" kwargs = None)
    (Hkey : assoc_get key kwargs = None)
    (Hne : key <> "top_probs")
    (Hcls : class_provides key = false) :
  exists self,
    BaseModel.new top_probs kwargs st = (Ok self, st) /\
    self_attr self key st = (Raise AttributeError, st).
Proof.
  eexists. split; [by apply new_ordinary|].
  apply self_attr_None; [|done].
  rewrite with_attributes_absent by (by apply assoc_get_None).
  by apply lookup_singleton_ne.
Qed.

Lemma constructor_sets_nothing_else_witness :
  exists self,
    @BaseModel.new bare_env None [("depth", VInt 3)] (State [] [])
      = (Ok self, State [] []) /\
    @self_attr bare_env self "preprocessor" (State [] [])
      = (Raise AttributeError, State [] []).
Proof.
  apply (@constructor_sets_nothing_else bare_env None [("depth", VInt 3)]
           "preprocessor" (State [] [])).
  - repeat constructor.
  - reflexivity.
  - reflexivity.
  - discriminate.
  - reflexivity.
Defined.

(** X10: a model constructed from ordinary keyword arguments without
    [preprocessor], [postprocessor] and [prob_decoder] among them runs on
    the fallbacks: [preprocess] and [postprocess] give back their argument
    and [decode_prob] is the default decoding, each after its warning. *)
Theorem constructed_without_delegates `{Env} (top_probs : option value)
    (kwargs : list (string * value)) (v : value) (st : state)
    (Hord : ordinary_keys kwargs)
    (Hbound : assoc_get "top_probs" kwargs = None)
    (Hpre : assoc_get "preprocessor" kwargs = None)
    (Hpost : assoc_get "postprocessor" kwargs = None)
    (Hdec : assoc_get "prob_decoder" kwargs = None) :
  exists self,
    BaseModel.new top_probs kwargs st = (Ok self, st) /\
    BaseModel.preprocess self v st
      = (Ok v, warned st "Evaluating without preprocessor") /\
    BaseModel.postprocess self v st
      = (Ok v, warned st "Evaluating without postprocessor") /\
    BaseModel.decode_prob self v st
      = BaseModel.default_decode self v
          (warned st "Evaluating without class decoder").
Proof.
  eexists. split; [by apply new_ordinary|].
  assert (Habsent : forall key, assoc_get key kwargs = None ->
            key <> "top_probs" ->
            with_attributes {[ "top_probs" := default (VInt 5) top_probs ]}
              kwargs !! key = None).
  { intros key Hkey Hne.
    rewrite with_attributes_absent by (by apply assoc_get_None).
    by apply lookup_singleton_ne. }
  split; [|split].
  - apply preprocess_no_delegate. left. by apply Habsent.
  - apply postprocess_no_delegate. left. by apply Habsent.
  - apply decode_prob_no_delegate. left. by apply Habsent.
Qed.

Lemma constructed_without_delegates_witness :
  exists self,
    @BaseModel.new bare_env None [("depth", VInt 3)] st_example
      = (Ok self, st_example) /\
    @BaseModel.preprocess bare_env self (VRef 1%nat) st_example
      = (Ok (VRef 1%nat), warned st_example "Evaluating without preprocessor") /\
    @BaseModel.postprocess bare_env self (VRef 1%nat) st_example
      = (Ok (VRef 1%nat), warned st_example "Evaluating without postprocessor") /\
    @BaseModel.decode_prob bare_env self (VRef 1%nat) st_example
      = @BaseModel.default_decode bare_env self (VRef 1%nat)
          (warned st_example "Evaluating without class decoder").
Proof.
  apply (@constructed_without_delegates bare_env None [("depth", VInt 3)]
           (VRef 1%nat) st_example); try reflexivity.
  repeat constructor.
Defined.

(** ** More on the default decoding *)

Lemma retained_is_take k fs :
  exists m, retained k fs = take m (sort_by prob_lt (enum_from 0 fs)).
Proof. unfold retained, take_upto. destruct (k <? 0); by eexists. Qed.

Lemma retained_length_any k fs :
  Z.of_nat (length (retained k fs)) = slice_length k (length fs).
Proof.
  unfold retained, take_upto, slice_length.
  destruct (Z.ltb_spec k 0);
    rewrite length_take, sort_by_length, enum_from_length; lia.
Qed.

Lemma retained_beats_rest k fs p q :
  Forall not_nan fs -> p ∈ retained k fs -> q ∈ enum_from 0 fs ->
  q ∉ retained k fs -> before p q.
Proof.
  intros Hnan Hp Hq Hnq. destruct (retained_is_take k fs) as [m Hm].
  rewrite Hm in Hp, Hnq.
  apply elem_of_take in Hp as (a & Ha & Ham).
  rewrite <- (sort_by_perm prob_lt) in Hq.
  apply list_elem_of_lookup in Hq as [b Hb].
  destruct (decide (b < m)%nat) as [Hbm|Hbm].
  - destruct Hnq. apply elem_of_take. eauto.
  - eapply (strongly_sorted_lookup _ a b); eauto with lia.
    by apply sort_by_sorted.
Qed.

Lemma retained_all k fs p :
  Z.of_nat (length fs) <= k -> p ∈ enum_from 0 fs -> p ∈ retained k fs.
Proof.
  intros Hk Hp. unfold retained, take_upto.
  destruct (Z.ltb_spec k 0); [lia|].
  rewrite take_ge by (rewrite sort_by_length, enum_from_length; lia).
  by rewrite sort_by_perm.
Qed.

Lemma formatted_index p : entry_index (formatted p) = Some (Z.of_nat (fst p)).
Proof. reflexivity. Qed.

Lemma row_result_lookup k fs a d :
  row_result k fs !! a = Some d ->
  exists p, retained k fs !! a = Some p /\ d = formatted p.
Proof.
  unfold row_result. rewrite list_lookup_fmap.
  destruct (retained k fs !! a) as [p|]; [|done]. intros [= <-]. eauto.
Qed.

Lemma row_result_elem k fs d :
  d ∈ row_result k fs -> exists p, p ∈ retained k fs /\ d = formatted p.
Proof.
  intros (p & -> & Hp)%list_elem_of_fmap. eauto.
Qed.

Lemma row_result_keeps_top k fs :
  Forall not_nan fs -> keeps_top fs (row_result k fs).
Proof.
  intros Hnan j g Hj Habsent d i f Hd Hi Hf.
  apply row_result_elem in Hd as (p & Hp & ->).
  rewrite formatted_index in Hi. injection Hi as Hi.
  apply Nat2Z.inj in Hi. subst i.
  rewrite (retained_source k fs p Hp) in Hf. injection Hf as <-.
  assert (Hq : (j, g) ∈ enum_from 0 fs).
  { apply list_elem_of_lookup. exists j. rewrite enum_from_lookup, Hj. done. }
  assert (Hnq : (j, g) ∉ retained k fs).
  { intros Hin. apply (Habsent (formatted (j, g))).
    - unfold row_result. apply list_elem_of_fmap. eauto.
    - apply formatted_index. }
  destruct (retained_beats_rest k fs p (j, g) Hnan Hp Hq Hnq) as [Hgt|[Heq _]];
    [by left | by right].
Qed.

Lemma row_result_distinct k fs : distinct_indices (row_result k fs).
Proof.
  intros a b da db i Ha Hb Hia Hib.
  apply row_result_lookup in Ha as (p & Hp & ->).
  apply row_result_lookup in Hb as (q & Hq & ->).
  rewrite formatted_index in Hia, Hib.
  assert (Hpq : fst p = fst q) by (apply Nat2Z.inj; congruence).
  eapply (NoDup_lookup _ a b (fst p)); [apply (retained_NoDup k fs)| |].
  - by rewrite list_lookup_fmap, Hp.
  - by rewrite list_lookup_fmap, Hq, Hpq.
Qed.

Lemma row_result_covers k fs :
  Z.of_nat (length fs) <= k -> covers_row fs (row_result k fs).
Proof.
  intros Hk j f Hj. unfold row_result.
  apply list_elem_of_fmap. exists (j, f). split; [done|].
  apply retained_all; [done|].
  apply list_elem_of_lookup. exists j. by rewrite enum_from_lookup, Hj.
Qed.

Lemma results_at_mono a0 h ext dss :
  results_at a0 h dss -> results_at a0 (h ++ ext) dss.
Proof.
  intros (rs & Ha0 & Hrs). exists rs. split; [by apply lookup_app_l_Some|].
  eapply Forall2_impl; [exact Hrs|]. intros v ds Hv.
  eapply entries_at_mono; [exact Hv|]. intros x _ Hx. by apply lookup_app_l.
Qed.

Section MoreDecoding.
Context `{Env}.

(** Shared shape of the statements below: without a decoder and with an
    integer [top_probs], on an array of floats, every decoded row
    satisfies [P] whenever [row_result] does. *)
Lemma decode_prob_rows (P : list spec_float -> list (list (string * value)) -> Prop)
    (Q : list spec_float -> Prop) self k st arr rows :
  (forall fs, Q fs -> P fs (row_result k fs)) ->
  no_delegate self "prob_decoder" "prob_decoder_name" ->
  self !! "top_probs" = Some (VInt k) ->
  float_array (heap st) arr rows ->
  Forall Q rows ->
  exists v st' dss,
    BaseModel.decode_prob self arr st = (Ok v, st') /\
    read_results (heap st') v = Some dss /\
    Forall2 P rows dss.
Proof.
  intros HP Hno Htop Harr HQ.
  destruct (decode_prob_floats self k st arr rows Hno Htop Harr)
    as (ext & Hrun & Hres).
  eexists _, _, _. split; [exact Hrun|].
  split; [exact (results_at_read _ _ _ Hres)|].
  apply Forall2_fmap_r, Forall_Forall2_diag.
  eapply Forall_impl; [exact HQ|]. exact HP.
Qed.

End MoreDecoding.

Section DecodingEdges.
Context `{Env}.

(** [sorted(entries, key=itemgetter('prob'), reverse=True)] right after
    the entries of a row of floats have been built. *)
Lemma sorted_entries_run (h : list obj) fs w :
  let E := enum_from 0 fs in
  let h1 := h ++ OList (map (fun p => VRef (entry_loc (length h) p)) E)
              :: map (fun p => ODict (unformatted p)) E in
  sorted_by_key_desc (VRef (length h)) "prob" (State h1 w)
  = (Ok (VRef (length h1)),
     State (h1 ++ [OList (map (fun p => VRef (entry_loc (length h) p))
                            (sort_by prob_lt E))]) w).
Proof.
  cbv zeta. unfold sorted_by_key_desc.
  erewrite bind_ok; [|apply py_iter_list_run, lookup_middle].
  erewrite bind_ok; cycle 1.
  { apply (map_py_getitem _ _ _ _
             (map (fun p => VFloat (snd p)) (enum_from 0 fs))).
    apply Forall2_fmap, Forall_Forall2_diag, Forall_forall.
    intros p Hp. exists (entry_loc (length h) p), (unformatted p).
    split; [done|]. split; [|done].
    pose proof (lookup_entry h
      (OList (map (fun p => VRef (entry_loc (length h) p)) (enum_from 0 fs)))
      fs [] p Hp) as Hl.
    by rewrite app_nil_r in Hl. }
  rewrite zip_map_same.
  erewrite bind_ok; cycle 1.
  { apply sort_desc_pure. apply Forall_fmap, Forall_forall.
    intros p _. by exists (snd p). }
  rewrite (sort_by_map _ prob_lt) by done.
  rewrite map_snd_pair. apply alloc_run.
Qed.

(** A row of floats on an instance without [top_probs]: the entries are
    built and sorted, then reading the attribute fails. *)
Lemma decode_row_without_top self results r fs st :
  self !! "top_probs" = None ->
  heap st !! r = Some (OList (map VFloat fs)) ->
  exists ext,
    BaseModel.decode_row self results (VRef r) st
    = (Raise AttributeError, State (heap st ++ ext) (warnings st)).
Proof.
  destruct st as [h w]. cbn [heap warnings]. intros Htop Hr.
  eexists. unfold BaseModel.decode_row.
  run_with alloc_run.
  erewrite bind_ok; cycle 1.
  { apply py_iter_list_run. by apply lookup_app_l_Some. }
  erewrite bind_ok; [|exact (build_entries fs 0 h [] [] w eq_refl)].
  cbn [app].
  erewrite bind_ok; [|apply sorted_entries_run].
  erewrite bind_raise; [|by apply self_attr_None].
  rewrite <- app_assoc. reflexivity.
Qed.

(** X11: on an empty array [decode_prob] returns a new empty list after
    its warning; [top_probs] is not looked at, so this also holds for an
    instance that lacks it. *)
Theorem decode_prob_empty_array (self : instance) (a : loc) (st : state)
    (Hno : no_delegate self "prob_decoder" "prob_decoder_name")
    (Harr : heap st !! a = Some (OList [])) :
  BaseModel.decode_prob self (VRef a) st
  = (Ok (VRef (length (heap st))),
     State (heap st ++ [OList []])
           (warnings st ++ ["Evaluating without class decoder"])).
Proof.
  rewrite decode_prob_no_delegate by done.
  destruct st as [h w]. unfold warned, BaseModel.default_decode.
  cbn [heap warnings] in *.
  run_with alloc_run.
  erewrite bind_ok; cycle 1.
  { apply py_iter_list_run. by apply lookup_app_l_Some. }
  reflexivity.
Qed.

(** X12: on an instance without [top_probs] (a subclass whose constructor
    skipped the base one) and without a decoder, an array of floats with
    at least one row makes [decode_prob] raise [AttributeError]: the
    handler reads [self.top_probs] outside the [try].  The warning has
    been logged and the store has only grown. *)
Theorem decode_prob_without_top_probs (self : instance) (st : state)
    (output_arr : value) (fs : list spec_float) (rows : list (list spec_float))
    (Hno : no_delegate self "prob_decoder" "prob_decoder_name")
    (Htop : self !! "top_probs" = None)
    (Harr : float_array (heap st) output_arr (fs :: rows)) :
  exists ext,
    BaseModel.decode_prob self output_arr st
    = (Raise AttributeError,
       State (heap st ++ ext)
             (warnings st ++ ["Evaluating without class decoder"])).
Proof.
  rewrite decode_prob_no_delegate by done.
  destruct st as [h w]. unfold warned. cbn [heap warnings] in *.
  unfold float_array, read_array in Harr.
  destruct (read_list h output_arr) as [rvs|] eqn:Hlist; [|done].
  simpl in Harr. apply mapM_Some in Harr.
  destruct output_arr as [| | | |a|]; try done. unfold read_list in Hlist.
  destruct (h !! a) as [[items|]|] eqn:Ha; simplify_eq.
  inversion Harr as [|rv ? rvs' ? Hrv Hrest]; subst.
  destruct rv as [| | | |r|]; try done. unfold read_list in Hrv.
  destruct (h !! r) as [[items|]|] eqn:Hr; simplify_eq.
  destruct (decode_row_without_top self (VRef (length h)) r fs
              (State (h ++ [OList []]) (w ++ ["Evaluating without class decoder"]))
              Htop) as [ext Hrow].
  { by apply lookup_app_l_Some. }
  cbn [heap warnings] in Hrow.
  exists ([OList []] ++ ext). unfold BaseModel.default_decode.
  run_with alloc_run.
  erewrite bind_ok; cycle 1.
  { apply py_iter_list_run. by apply lookup_app_l_Some. }
  erewrite bind_raise; [by rewrite app_assoc|].
  rewrite for_each_cons. by apply bind_raise.
Qed.

(** X13: for every integer [top_probs = k], not only positive ones, the
    decoded row of a row of [n] floats has as many entries as the slice
    [[:k]] of a list of [n] items: none for [k = 0], [n + k] (or none) for
    negative [k]. *)
Theorem decode_prob_row_length_any_k (self : instance) (k : Z) (st : state)
    (output_arr : value) (rows : list (list spec_float))
    (Hno : no_delegate self "prob_decoder" "prob_decoder_name")
    (Htop : self !! "top_probs" = Some (VInt k))
    (Harr : float_array (heap st) output_arr rows) :
  exists v st' dss,
    BaseModel.decode_prob self output_arr st = (Ok v, st') /\
    read_results (heap st') v = Some dss /\
    Forall2 (fun fs ds => Z.of_nat (length ds) = slice_length k (length fs))
      rows dss.
Proof.
  apply (decode_prob_rows _ (fun _ => True) self k); auto.
  - intros fs _. unfold row_result. rewrite length_map.
    apply retained_length_any.
  - by apply Forall_true.
Qed.

(** X14: the entries kept for a row are its top ones.  For a row of floats
    without NaN, whatever the other rows hold, a class that has no entry in
    the decoded row has a probability that none of the entries falls
    below. *)
Theorem decode_prob_keeps_top (self : instance) (k : Z) (st : state)
    (output_arr : value) (rows : list (list spec_float))
    (Hno : no_delegate self "prob_decoder" "prob_decoder_name")
    (Htop : self !! "top_probs" = Some (VInt k))
    (Harr : float_array (heap st) output_arr rows) :
  exists v st' dss,
    BaseModel.decode_prob self output_arr st = (Ok v, st') /\
    read_results (heap st') v = Some dss /\
    Forall2 (fun fs ds => Forall not_nan fs -> keeps_top fs ds) rows dss.
Proof.
  apply (decode_prob_rows
           (fun fs ds => Forall not_nan fs -> keeps_top fs ds)
           (fun _ => True) self k); auto.
  - intros fs _. exact (row_result_keeps_top k fs).
  - by apply Forall_true.
Qed.

(** X15: no class gets two entries in a decoded row. *)
Theorem decode_prob_distinct_classes (self : instance) (k : Z) (st : state)
    (output_arr : value) (rows : list (list spec_float))
    (Hno : no_delegate self "prob_decoder" "prob_decoder_name")
    (Htop : self !! "top_probs" = Some (VInt k))
    (Harr : float_array (heap st) output_arr rows) :
  exists v st' dss,
    BaseModel.decode_prob self output_arr st = (Ok v, st') /\
    read_results (heap st') v = Some dss /\
    Forall distinct_indices dss.
Proof.
  destruct (decode_prob_rows (fun _ ds => distinct_indices ds) (fun _ => True)
              self k st output_arr rows) as (v & st' & dss & Hrun & Hread & Hall);
    auto.
  - intros fs _. apply row_result_distinct.
  - by apply Forall_true.
  - exists v, st', dss. split; [done|]. split; [done|].
    eapply Forall2_Forall_r; [exact Hall|]. by apply Forall_true.
Qed.

(** X16: when [top_probs] is at least the number of classes of every row,
    nothing is dropped: every class of a row has its entry, with its index,
    its name and its formatted probability, in the decoded row. *)
Theorem decode_prob_keeps_all_classes (self : instance) (k : Z) (st : state)
    (output_arr : value) (rows : list (list spec_float))
    (Hno : no_delegate self "prob_decoder" "prob_decoder_name")
    (Htop : self !! "top_probs" = Some (VInt k))
    (Harr : float_array (heap st) output_arr rows)
    (Hk : Forall (fun fs => Z.of_nat (length fs) <= k) rows) :
  exists v st' dss,
    BaseModel.decode_prob self output_arr st = (Ok v, st') /\
    read_results (heap st') v = Some dss /\
    Forall2 covers_row rows dss.
Proof.
  apply (decode_prob_rows _ (fun fs => Z.of_nat (length fs) <= k) self k); auto.
  intros fs. apply row_result_covers.
Qed.

(** X17: what is not a nested array is rejected with [TypeError], after
    the warning: an argument that cannot be iterated, and a flat list whose
    first item is a number (or [None]) rather than a row.  In the second
    case the result list and the entry list of the first row have already
    been allocated. *)
Theorem decode_prob_rejects_flat_input (self : instance) (st : state)
    (Hno : no_delegate self "prob_decoder" "prob_decoder_name") :
  (forall v, not_iterable v ->
     BaseModel.decode_prob self v st
     = (Raise TypeError,
        State (heap st ++ [OList []])
              (warnings st ++ ["Evaluating without class decoder"]))) /\
  (forall a c rest, heap st !! a = Some (OList (c :: rest)) -> not_iterable c ->
     BaseModel.decode_prob self (VRef a) st
     = (Raise TypeError,
        State (heap st ++ [OList []; OList []])
              (warnings st ++ ["Evaluating without class decoder"]))).
Proof.
  destruct st as [h w]. cbn [heap warnings]. split.
  - intros v Hv. rewrite decode_prob_no_delegate by done.
    unfold warned, BaseModel.default_decode. cbn [heap warnings].
    run_with alloc_run. by destruct v.
  - intros a c rest Ha Hc. rewrite decode_prob_no_delegate by done.
    unfold warned, BaseModel.default_decode. cbn [heap warnings].
    run_with alloc_run.
    erewrite bind_ok; cycle 1.
    { apply py_iter_list_run. by apply lookup_app_l_Some. }
    erewrite bind_raise; cycle 1.
    { rewrite for_each_cons. apply bind_raise.
      unfold BaseModel.decode_row. run_with alloc_run. by destruct c. }
    by rewrite <- app_assoc.
Qed.

(** X18: decoding the same array twice gives two separate result lists
    with the same decoded rows, and the second call leaves the result of
    the first as it was. *)
Theorem decode_prob_twice (self : instance) (k : Z) (st : state)
    (output_arr : value) (rows : list (list spec_float))
    (Hno : no_delegate self "prob_decoder" "prob_decoder_name")
    (Htop : self !! "top_probs" = Some (VInt k))
    (Harr : float_array (heap st) output_arr rows) :
  exists v1 st1 v2 st2 dss,
    BaseModel.decode_prob self output_arr st = (Ok v1, st1) /\
    BaseModel.decode_prob self output_arr st1 = (Ok v2, st2) /\
    v1 <> v2 /\
    read_results (heap st1) v1 = Some dss /\
    read_results (heap st2) v1 = Some dss /\
    read_results (heap st2) v2 = Some dss.
Proof.
  destruct (decode_prob_floats self k st output_arr rows Hno Htop Harr)
    as (ext1 & Hrun1 & Hres1).
  set (st1 := State (heap st ++ ext1)
                (warnings st ++ ["Evaluating without class decoder"])).
  destruct (decode_prob_floats self k st1 output_arr rows Hno Htop)
    as (ext2 & Hrun2 & Hres2).
  { by apply float_array_mono. }
  cbn [heap warnings st1] in Hrun2, Hres2.
  eexists _, _, _, _, _. split; [exact Hrun1|]. split; [exact Hrun2|].
  assert (Hlt : (length (heap st) < length (heap st ++ ext1))%nat).
  { destruct Hres1 as (rs & Hrs & _). by apply lookup_lt_Some in Hrs. }
  split; [intros [= Heq]; lia|].
  split; [exact (results_at_read _ _ _ Hres1)|].
  split; [|exact (results_at_read _ _ _ Hres2)].
  apply results_at_read. by apply results_at_mono.
Qed.

End DecodingEdges.

(** ** The further decoding properties at sample inputs *)

Lemma decode_prob_empty_array_witness :
  @BaseModel.decode_prob bare_env ∅ (VRef 0%nat) st_empty
  = (Ok (VRef 1%nat),
     State [OList []; OList []] ["Evaluating without class decoder"]).
Proof.
  apply (@decode_prob_empty_array bare_env ∅ 0%nat st_empty).
  - left. reflexivity.
  - reflexivity.
Defined.

Lemma decode_prob_without_top_probs_witness :
  exists ext,
    @BaseModel.decode_prob bare_env ∅ (VRef 1%nat) st_example
    = (Raise AttributeError,
       State (heap st_example ++ ext)
             (warnings st_example ++ ["Evaluating without class decoder"])).
Proof.
  apply (@decode_prob_without_top_probs bare_env ∅ st_example (VRef 1%nat)
           [f0_1; f0_7; f0_2] []).
  - left. reflexivity.
  - reflexivity.
  - reflexivity.
Defined.

Lemma decode_prob_row_length_any_k_witness :
  exists v st' dss,
    @BaseModel.decode_prob bare_env (plain_model (-1)) (VRef 1%nat) st_example
      = (Ok v, st') /\
    read_results (heap st') v = Some dss /\
    Forall2 (fun fs ds => Z.of_nat (length ds) = slice_length (-1) (length fs))
      [[f0_1; f0_7; f0_2]] dss.
Proof.
  apply (@decode_prob_row_length_any_k bare_env (plain_model (-1)) (-1)
           st_example (VRef 1%nat) [[f0_1; f0_7; f0_2]]).
  - left. reflexivity.
  - reflexivity.
  - reflexivity.
Defined.

Lemma decode_prob_keeps_top_witness :
  exists v st' dss,
    @BaseModel.decode_prob bare_env (plain_model 2) (VRef 2%nat) st_mixed
      = (Ok v, st') /\
    read_results (heap st') v = Some dss /\
    Forall2 (fun fs ds => Forall not_nan fs -> keeps_top fs ds)
      [[f1_0; S754_nan; f2_0]; [f0_2; f0_7; f0_2]] dss.
Proof.
  apply (@decode_prob_keeps_top bare_env (plain_model 2) 2 st_mixed
           (VRef 2%nat) [[f1_0; S754_nan; f2_0]; [f0_2; f0_7; f0_2]]).
  - left. reflexivity.
  - reflexivity.
  - reflexivity.
Defined.

Lemma decode_prob_distinct_classes_witness :
  exists v st' dss,
    @BaseModel.decode_prob bare_env (plain_model 2) (VRef 1%nat) st_example
      = (Ok v, st') /\
    read_results (heap st') v = Some dss /\
    Forall distinct_indices dss.
Proof.
  apply (@decode_prob_distinct_classes bare_env (plain_model 2) 2 st_example
           (VRef 1%nat) [[f0_1; f0_7; f0_2]]).
  - left. reflexivity.
  - reflexivity.
  - reflexivity.
Defined.

Lemma decode_prob_keeps_all_classes_witness :
  exists v st' dss,
    @BaseModel.decode_prob bare_env (plain_model 5) (VRef 1%nat) st_example
      = (Ok v, st') /\
    read_results (heap st') v = Some dss /\
    Forall2 covers_row [[f0_1; f0_7; f0_2]] dss.
Proof.
  apply (@decode_prob_keeps_all_classes bare_env (plain_model 5) 5 st_example
           (VRef 1%nat) [[f0_1; f0_7; f0_2]]).
  - left. reflexivity.
  - reflexivity.
  - reflexivity.
  - repeat constructor. simpl. lia.
Defined.

Lemma decode_prob_rejects_flat_input_witness :
  @BaseModel.decode_prob bare_env (plain_model 2) (VInt 7) st_flat
    = (Raise TypeError,
       State (heap st_flat ++ [OList []])
             ["Evaluating without class decoder"]) /\
  @BaseModel.decode_prob bare_env (plain_model 2) (VRef 0%nat) st_flat
    = (Raise TypeError,
       State (heap st_flat ++ [OList []; OList []])
             ["Evaluating without class decoder"]).
Proof.
  destruct (@decode_prob_rejects_flat_input bare_env (plain_model 2) st_flat)
    as [Hscalar Hflat].
  - left. reflexivity.
  - split.
    + apply Hscalar. exact I.
    + apply (Hflat 0%nat (VFloat f0_1) [VFloat f0_7]); [reflexivity | exact I].
Defined.

Lemma decode_prob_twice_witness :
  exists v1 st1 v2 st2 dss,
    @BaseModel.decode_prob bare_env (plain_model 2) (VRef 1%nat) st_example
      = (Ok v1, st1) /\
    @BaseModel.decode_prob bare_env (plain_model 2) (VRef 1%nat) st1
      = (Ok v2, st2) /\
    v1 <> v2 /\
    read_results (heap st1) v1 = Some dss /\
    read_results (heap st2) v1 = Some dss /\
    read_results (heap st2) v2 = Some dss.
Proof.
  apply (@decode_prob_twice bare_env (plain_model 2) 2 st_example
           (VRef 1%nat) [[f0_1; f0_7; f0_2]]).
  - left. reflexivity.
  - reflexivity.
  - reflexivity.
Defined.
